(** * pymarc.field: a shallow embedding of [Field] and its serializers

    The development follows [src/pymarc/field.py].  A [Field] instance is a
    Python object whose attributes are created by [__init__] depending on
    the tag, so the record below keeps every attribute optional; reading an
    attribute that was never set raises [AttributeError], indexing a list
    past its end raises [IndexError].  Methods that iterate [self] go
    through [__iter__] and [next], which keep the cursor on the instance.

    The module is Python 2 code ([next] is the iterator method a [for]
    loop calls).  Its [str] values are modelled by [string] (sequences of
    8-bit characters), lists of them by [list string]; tags, indicators,
    subfield codes and values and control data are all [str]. *)

From Stdlib Require Import String Ascii List Arith Lia Bool.
Import ListNotations.

Local Open Scope string_scope.
Local Open Scope list_scope.

(* ================================================================== *)
(** ** Python string primitives used by the module *)
(* ================================================================== *)

Module PyStr.

(** [' ' * n] *)
Fixpoint spaces (n : nat) : string :=
  match n with
  | O => EmptyString
  | S k => String " " (spaces k)
  end.

(** ['%03s' % s]: the [0] flag has no effect on [%s]; the value is
    right-justified with spaces in a field of width 3, and passed through
    unchanged when it is already that wide. *)
Definition fmt_03s (s : string) : string :=
  (spaces (3 - String.length s) ++ s)%string.

(** [a < b] on [str]: lexicographic on character codes, a proper prefix
    being smaller. *)
Fixpoint str_lt (a b : string) : bool :=
  match a, b with
  | _, EmptyString => false
  | EmptyString, String _ _ => true
  | String x a', String y b' =>
      if Nat.ltb (nat_of_ascii x) (nat_of_ascii y) then true
      else if Nat.ltb (nat_of_ascii y) (nat_of_ascii x) then false
      else str_lt a' b'
  end.

(** The order [str_lt] decides, as a relation. *)
Inductive lex_lt : string -> string -> Prop :=
| lex_prefix : forall c s, lex_lt EmptyString (String c s)
| lex_head : forall x y a b,
    nat_of_ascii x < nat_of_ascii y -> lex_lt (String x a) (String y b)
| lex_tail : forall x a b, lex_lt a b -> lex_lt (String x a) (String x b).

(** [s.startswith(c)] for a one-character prefix. *)
Definition startswith (s : string) (c : ascii) : bool :=
  match s with
  | String x _ => Ascii.eqb x c
  | EmptyString => false
  end.

(** [s.replace(old, new)] for one-character [old] and [new]. *)
Fixpoint replace (old new : ascii) (s : string) : string :=
  match s with
  | EmptyString => EmptyString
  | String c s' =>
      String (if Ascii.eqb c old then new else c) (replace old new s')
  end.

(** [c.isspace()] for an 8-bit character: space, TAB, LF, VT, FF, CR. *)
Definition isspace (c : ascii) : bool :=
  let n := nat_of_ascii c in
  Nat.eqb n 32 || (Nat.leb 9 n && Nat.leb n 13).

(** [s.lstrip()] *)
Fixpoint lstrip (s : string) : string :=
  match s with
  | EmptyString => EmptyString
  | String c s' => if isspace c then lstrip s' else s
  end.

(** [s.rstrip()] *)
Fixpoint rstrip (s : string) : string :=
  match s with
  | EmptyString => EmptyString
  | String c s' =>
      match rstrip s' with
      | EmptyString => if isspace c then EmptyString else String c EmptyString
      | r => String c r
      end
  end.

(** [s.strip()] *)
Definition strip (s : string) : string := rstrip (lstrip s).

(** [x in (t1, ..., tn)] for a tuple of strings. *)
Definition in_tuple (x : string) (t : list string) : bool :=
  existsb (String.eqb x) t.

(** [all(c.isspace() for c in s)] *)
Fixpoint all_space (s : string) : bool :=
  match s with
  | EmptyString => true
  | String c s' => isspace c && all_space s'
  end.

(** [s[:1].isspace()] and [s[-1:].isspace()] *)
Definition starts_blank (s : string) : bool :=
  match s with
  | String c _ => isspace c
  | EmptyString => false
  end.

Fixpoint ends_blank (s : string) : bool :=
  match s with
  | EmptyString => false
  | String c EmptyString => isspace c
  | String _ s' => ends_blank s'
  end.

(** [''.join(l)] *)
Definition join (l : list string) : string :=
  fold_right String.append EmptyString l.

End PyStr.

(* ================================================================== *)
(** ** Exceptions, outcomes and the instance state *)
(* ================================================================== *)

(** The exceptions the module can raise: the two the interpreter raises
    for a bad index and a missing attribute, and [StopIteration], the only
    one the source raises itself. *)
Inductive exn : Type :=
| IndexError
| AttributeError (name : string)
| StopIteration.

(** [IndexError] and [AttributeError] are raised by the interpreter, for
    a failed index or attribute lookup; an error that a method raises to
    report its own check would not be one of them. *)
Definition raised_by_interpreter (e : exn) : bool :=
  match e with
  | IndexError | AttributeError _ => true
  | StopIteration => false
  end.

Inductive outcome (A : Type) : Type :=
| Return (a : A)
| Raise (e : exn).

Arguments Return {A} a.
Arguments Raise {A} e.

(** The attributes of a [Field] instance; [None] is an attribute that was
    never assigned.  [_Field__pos] is the mangled name of [self.__pos]. *)
Record Field : Type := mkField {
  tag : string;
  data : option string;
  indicators : option (list string);
  indicator1 : option string;
  indicator2 : option string;
  subfields : option (list string);
  _Field__pos : option nat
}.

Definition set_data (v : string) (self : Field) : Field :=
  mkField (tag self) (Some v) (indicators self) (indicator1 self)
          (indicator2 self) (subfields self) (_Field__pos self).

Definition set_indicators (v : list string) (self : Field) : Field :=
  mkField (tag self) (data self) (Some v) (indicator1 self)
          (indicator2 self) (subfields self) (_Field__pos self).

Definition set_indicator1 (v : string) (self : Field) : Field :=
  mkField (tag self) (data self) (indicators self) (Some v)
          (indicator2 self) (subfields self) (_Field__pos self).

Definition set_indicator2 (v : string) (self : Field) : Field :=
  mkField (tag self) (data self) (indicators self) (indicator1 self)
          (Some v) (subfields self) (_Field__pos self).

Definition set_subfields (v : list string) (self : Field) : Field :=
  mkField (tag self) (data self) (indicators self) (indicator1 self)
          (indicator2 self) (Some v) (_Field__pos self).

Definition set_pos (v : nat) (self : Field) : Field :=
  mkField (tag self) (data self) (indicators self) (indicator1 self)
          (indicator2 self) (subfields self) (Some v).

(** A method body: it reads and updates [self] and either returns or
    raises.  [None] is a [for] loop that used up its bound before the
    iterator stopped; [for_self_terminates] shows that no loop of this
    module does. *)
Definition M (A : Type) : Type := Field -> option (outcome A * Field).

Definition ret {A} (a : A) : M A := fun self => Some (Return a, self).

Definition raise {A} (e : exn) : M A := fun self => Some (Raise e, self).

Definition bind {A B} (m : M A) (k : A -> M B) : M B :=
  fun self =>
    match m self with
    | Some (Return a, self') => k a self'
    | Some (Raise e, self') => Some (Raise e, self')
    | None => None
    end.

Notation "x <- m ;; k" := (bind m (fun x => k))
  (at level 61, m at next level, right associativity).
Notation "m ;;; k" := (bind m (fun _ => k))
  (at level 61, right associativity).

(** [self.<name>] *)
Definition getattr {A} (name : string) (proj : Field -> option A) : M A :=
  fun self =>
    match proj self with
    | Some a => Some (Return a, self)
    | None => Some (Raise (AttributeError name), self)
    end.

(** [self.<name> = v] *)
Definition setattr (upd : Field -> Field) : M unit :=
  fun self => Some (Return tt, upd self).

(** [l[i]] for a non-negative index. *)
Definition index {A} (l : list A) (i : nat) : M A :=
  match nth_error l i with
  | Some a => ret a
  | None => raise IndexError
  end.

(** [l[i]] outside a method body. *)
Definition list_index {A} (l : list A) (i : nat) : outcome A :=
  match nth_error l i with
  | Some a => Return a
  | None => Raise IndexError
  end.

(* ================================================================== *)
(** ** The methods of [Field] *)
(* ================================================================== *)

(** [Field.is_control_field] *)
Definition is_control_field (self : Field) : bool :=
  if PyStr.str_lt (tag self) "010" then true else false.

(** [Field.is_subject_field] *)
Definition is_subject_field (self : Field) : bool :=
  if PyStr.startswith (tag self) "6" then true else false.

(** [if x == None: x = []] *)
Definition or_empty (l : option (list string)) : list string :=
  match l with
  | Some l => l
  | None => []
  end.

(** The instance [__init__] starts from: no attribute assigned yet. *)
Definition blank (t : string) : Field :=
  mkField t None None None None None None.

(** [Field.__init__]: the constructor call returns the instance, or
    propagates the exception and returns nothing. *)
Definition __init__ (tag0 : string) (indicators0 subfields0 : option (list string))
    (data0 : string) : outcome Field :=
  let indicators0 := or_empty indicators0 in
  let subfields0 := or_empty subfields0 in
  let self := blank (PyStr.fmt_03s tag0) in
  if PyStr.str_lt (tag self) "010" then
    Return (set_data data0 self)
  else
    let self := set_indicators indicators0 self in
    match list_index indicators0 0 with
    | Raise e => Raise e
    | Return i1 =>
        let self := set_indicator1 i1 self in
        match list_index indicators0 1 with
        | Raise e => Raise e
        | Return i2 =>
            let self := set_indicator2 i2 self in
            Return (set_subfields subfields0 self)
        end
    end.

(** [Field.__iter__]: resets the cursor kept on the instance. *)
Definition __iter__ : M unit := setattr (set_pos 0).

(** [Field.next] *)
Definition next : M (string * string) :=
  pos <- getattr "_Field__pos" _Field__pos ;;
  subs <- getattr "subfields" subfields ;;
  if Nat.ltb pos (List.length subs) then
    code <- index subs pos ;;
    val <- index subs (pos + 1) ;;
    setattr (set_pos (pos + 2)) ;;;
    ret (code, val)
  else raise StopIteration.

(** The body of [for subfield in self: acc = body(acc, subfield)] once
    [__iter__] has run: [next] until [StopIteration], at most [fuel]
    times. *)
Fixpoint iterate {A} (fuel : nat) (body : A -> string * string -> A)
    (acc : A) (self : Field) : option (outcome A * Field) :=
  match fuel with
  | O => None
  | S fuel' =>
      match next self with
      | Some (Return subfield, self') =>
          iterate fuel' body (body acc subfield) self'
      | Some (Raise StopIteration, self') => Some (Return acc, self')
      | Some (Raise e, self') => Some (Raise e, self')
      | None => None
      end
  end.

(** Calls of [next] a loop over [self] may need: one per stored entry and
    the one that stops. *)
Definition loop_bound (self : Field) : nat :=
  match subfields self with
  | Some subs => S (List.length subs)
  | None => 1
  end.

(** [for subfield in self: ...] *)
Definition for_self {A} (body : A -> string * string -> A) (acc : A) : M A :=
  __iter__ ;;;
  (fun self => iterate (loop_bound self) body acc self).

(** [Field.value] *)
Definition value : M string :=
  fun self =>
    if is_control_field self then getattr "data" data self
    else for_self (fun string subfield => string ++ snd subfield)%string
                  EmptyString self.

(** [Field.get_subfields], called with the tuple [codes] *)
Definition get_subfields (codes : list string) : M (list string) :=
  for_self (fun values subfield =>
              if PyStr.in_tuple (fst subfield) codes
              then values ++ [snd subfield] else values)
           [].

(** [Field.__getitem__]; [None] is Python's [None]. *)
Definition __getitem__ (subfield : string) : M (option string) :=
  subs <- get_subfields [subfield] ;;
  if Nat.ltb 0 (List.length subs) then
    first <- index subs 0 ;; ret (Some first)
  else ret None.

(** [Field.add_subfield] *)
Definition add_subfield (code val : string) : M unit :=
  subs <- getattr "subfields" subfields ;;
  setattr (set_subfields (subs ++ [code])) ;;;
  subs <- getattr "subfields" subfields ;;
  setattr (set_subfields (subs ++ [val])).

(** [Field.format_field] *)
Definition format_field : M string :=
  fun self =>
    if is_control_field self then getattr "data" data self
    else
      (fielddata <-
         for_self (fun fielddata subfield =>
                     if negb (is_subject_field self) then
                       fielddata ++ " " ++ snd subfield
                     else if negb (PyStr.in_tuple (fst subfield)
                                     ["v"; "x"; "y"; "z"]) then
                       fielddata ++ " " ++ snd subfield
                     else fielddata ++ " -- " ++ snd subfield)%string
                  EmptyString ;;
       ret (PyStr.strip fielddata)) self.

(** [Field.__str__] *)
Definition __str__ : M string :=
  fun self =>
    if is_control_field self then
      (d <- getattr "data" data ;;
       ret ("=" ++ tag self ++ "  " ++ PyStr.replace " " "\" d)%string) self
    else
      (inds <- getattr "indicators" indicators ;;
       let text :=
         fold_left (fun text indicator =>
                      if PyStr.in_tuple indicator [" "; "\"]
                      then text ++ "\" else text ++ indicator)%string
                   inds ("=" ++ tag self ++ "  ")%string in
       for_self (fun text subfield =>
                   text ++ "$" ++ fst subfield ++ snd subfield)%string
                text) self.

Section Constants.

(** [pymarc.constants] is imported by the module and is not part of it:
    the two values are parameters of the serializer. *)
Variables SUBFIELD_INDICATOR END_OF_FIELD : string.

(** [Field.as_marc21]; [str(x)] of a string is the string. *)
Definition as_marc21 : M string :=
  fun self =>
    if is_control_field self then
      (d <- getattr "data" data ;; ret (d ++ END_OF_FIELD)%string) self
    else
      (i1 <- getattr "indicator1" indicator1 ;;
       i2 <- getattr "indicator2" indicator2 ;;
       marc <- for_self (fun marc subfield =>
                           marc ++ (SUBFIELD_INDICATOR ++ fst subfield)
                                ++ snd subfield)%string
                        (i1 ++ i2)%string ;;
       ret (marc ++ END_OF_FIELD)%string) self.

End Constants.

(* ================================================================== *)
(** ** The stored subfield list read as pairs *)
(* ================================================================== *)

(** The (code, value) pairs of a flat subfield list, in stored order; an
    unpaired last entry is not a pair. *)
Fixpoint pairs (l : list string) : list (string * string) :=
  match l with
  | code :: val :: rest => (code, val) :: pairs rest
  | _ => []
  end.

(** The flat list a sequence of pairs is stored as. *)
Fixpoint flat (ps : list (string * string)) : list string :=
  match ps with
  | [] => []
  | (code, val) :: rest => code :: val :: flat rest
  end.

(** The number of stored pairs. *)
Definition pair_count (l : list string) : nat := List.length (pairs l).

(** What one subfield contributes to [format_field]. *)
Definition pretty_piece (subject : bool) (p : string * string) : string :=
  if subject && PyStr.in_tuple (fst p) ["v"; "x"; "y"; "z"]
  then (" -- " ++ snd p)%string
  else (" " ++ snd p)%string.

(** What one indicator contributes to [__str__]. *)
Definition mnemonic_indicator (i : string) : string :=
  if String.eqb i " " || String.eqb i "\" then "\" else i.

(** The state a completed or failed loop leaves: only the cursor moved. *)
Definition cursor_at (n : nat) (self : Field) : Field := set_pos n self.

(* ================================================================== *)
(** ** The two variants [__init__] builds *)
(* ================================================================== *)

(** A control field holding [d]: the tag is below ["010"], [data] is set
    and none of the data-field attributes is. *)
Record ControlField (d : string) (self : Field) : Prop := {
  cf_tag : is_control_field self = true;
  cf_data : data self = Some d;
  cf_indicators : indicators self = None;
  cf_indicator1 : indicator1 self = None;
  cf_indicator2 : indicator2 self = None;
  cf_subfields : subfields self = None
}.

(** A data field with the indicator list [i1 :: i2 :: more] and the flat
    subfield list [subs]. *)
Record DataField (i1 i2 : string) (more subs : list string) (self : Field)
  : Prop := {
  df_tag : is_control_field self = false;
  df_indicators : indicators self = Some (i1 :: i2 :: more);
  df_indicator1 : indicator1 self = Some i1;
  df_indicator2 : indicator2 self = Some i2;
  df_subfields : subfields self = Some subs
}.

(** The MARC 21 field terminator and subfield delimiter (1E and 1F hex),
    the values the serializer is instantiated with in the examples. *)
Definition RS : string := String (ascii_of_nat 30) EmptyString.
Definition US : string := String (ascii_of_nat 31) EmptyString.

(** [Field('001', data='fol123')] *)
Definition field_001 : Field :=
  mkField "001" (Some "fol123") None None None None None.

(** [Field('008', data='a b')] *)
Definition field_008 : Field :=
  mkField "008" (Some "a b") None None None None None.

(** [Field(t, [i1, i2], subs)] for a tag [t] that is not below ["010"]. *)
Definition data_field (t i1 i2 : string) (subs : list string) : Field :=
  mkField t None (Some [i1; i2]) (Some i1) (Some i2) (Some subs) None.

Definition field_245 : Field := data_field "245" "0" "1" ["a"; "Hi"].

Definition field_245_xy : Field :=
  data_field "245" "0" "1" ["a"; "X"; "b"; "Y"].

Definition field_245_cats : Field :=
  data_field "245" " " " " ["a"; "Cats"; "v"; "Fiction"].

Definition field_650_cats : Field :=
  data_field "650" " " " " ["a"; "Cats"; "v"; "Fiction"].

Definition field_100 : Field := data_field "100" " " " " ["a"; "Hunt"].

(** A data field whose list has an unpaired last entry. *)
Definition field_245_odd : Field := data_field "245" "0" "1" ["a"; "X"; "b"].


(** Two instances that differ at most in the cursor. *)
Definition same_content (a b : Field) : Prop :=
  tag a = tag b /\ data a = data b /\ indicators a = indicators b /\
  indicator1 a = indicator1 b /\ indicator2 a = indicator2 b /\
  subfields a = subfields b.

(** A method that leaves the instance as it was or with the cursor moved,
    and that gives the same result when it is called again from there. *)
Definition cursor_only {A} (m : M A) : Prop :=
  forall self r self',
    m self = Some (r, self') ->
    (self' = self \/ exists n, self' = cursor_at n self) /\
    m self' = Some (r, self').

(** The values [get_subfields] selects from a sequence of pairs. *)
Definition selected (codes : list string) (ps : list (string * string))
  : list string :=
  map snd (filter (fun p => PyStr.in_tuple (fst p) codes) ps).

(** [sep.join(l)] *)
Fixpoint join_with (sep : string) (l : list string) : string :=
  match l with
  | [] => EmptyString
  | [x] => x
  | x :: rest => (x ++ sep ++ join_with sep rest)%string
  end.

(* ================================================================== *)
(** ** Strings *)
(* ================================================================== *)

Module PyStrFacts.
Import PyStr.

Lemma append_nil_r (s : string) : (s ++ "")%string = s.
Proof.
  induction s as [|c s IH]; simpl; [reflexivity | now rewrite IH].
Qed.

Lemma append_assoc (a b c : string) :
  ((a ++ b) ++ c)%string = (a ++ (b ++ c))%string.
Proof.
  induction a as [|x a IH]; simpl; [reflexivity | now rewrite IH].
Qed.

Lemma length_append (a b : string) :
  String.length (a ++ b) = String.length a + String.length b.
Proof.
  induction a as [|x a IH]; simpl; [reflexivity | now rewrite IH].
Qed.

Lemma length_spaces (n : nat) : String.length (spaces n) = n.
Proof.
  induction n as [|n IH]; simpl; [reflexivity | now rewrite IH].
Qed.

(** A loop that only appends to its accumulator builds the join of the
    pieces. *)
Lemma fold_append {A} (g : A -> string) (l : list A) (acc : string) :
  fold_left (fun s x => s ++ g x)%string l acc
  = (acc ++ join (map g l))%string.
Proof.
  revert acc; induction l as [|x l IH]; intro acc; simpl.
  - now rewrite append_nil_r.
  - rewrite IH. now rewrite append_assoc.
Qed.

(** [str_lt] decides the lexicographic order. *)
Lemma str_lt_lex (a b : string) : str_lt a b = true <-> lex_lt a b.
Proof.
  revert b; induction a as [|x a IH]; intros [|y b]; simpl.
  - split; [discriminate | intro H; inversion H].
  - split; [intros _; constructor | reflexivity].
  - split; [discriminate | intro H; inversion H].
  - destruct (Nat.ltb_spec (nat_of_ascii x) (nat_of_ascii y)) as [Hxy|Hxy].
    + split; [intros _; now constructor | reflexivity].
    + destruct (Nat.ltb_spec (nat_of_ascii y) (nat_of_ascii x)) as [Hyx|Hyx].
      * split; [discriminate|].
        intro H; inversion H; subst; lia.
      * assert (x = y) as ->.
        { rewrite <- (ascii_nat_embedding x), <- (ascii_nat_embedding y).
          f_equal; lia. }
        rewrite IH. split.
        -- now constructor.
        -- intro H; inversion H; subst; [lia | assumption].
Qed.

Lemma replace_length (old new : ascii) (s : string) :
  String.length (replace old new s) = String.length s.
Proof.
  induction s as [|c s IH]; simpl; [reflexivity | now rewrite IH].
Qed.

Lemma replace_get (old new : ascii) (s : string) (n : nat) :
  String.get n (replace old new s)
  = option_map (fun c => if Ascii.eqb c old then new else c) (String.get n s).
Proof.
  revert n; induction s as [|c s IH]; intro n; simpl; [reflexivity|].
  destruct n as [|n]; simpl; [reflexivity | apply IH].
Qed.

Lemma rstrip_empty_iff (s : string) :
  rstrip s = ""%string <-> all_space s = true.
Proof.
  induction s as [|c s IH]; simpl; [tauto|].
  destruct (rstrip s) eqn:E.
  - destruct (isspace c); simpl.
    + tauto.
    + split; discriminate.
  - split; [discriminate|].
    intro H. apply andb_true_iff in H as [_ H].
    apply IH in H. discriminate.
Qed.

(** [rstrip] keeps a character that is followed by a non-blank one. *)
Lemma rstrip_cons (c : ascii) (s : string) :
  rstrip (String c s)
  = if all_space s
    then (if isspace c then "" else String c "")%string
    else String c (rstrip s).
Proof.
  simpl. destruct (all_space s) eqn:E.
  - apply rstrip_empty_iff in E. now rewrite E.
  - destruct (rstrip s) eqn:R; [|reflexivity].
    assert (all_space s = true) by now apply rstrip_empty_iff.
    congruence.
Qed.

End PyStrFacts.

(* ================================================================== *)
(** ** Pairs *)
(* ================================================================== *)

Lemma pairs_flat (ps : list (string * string)) : pairs (flat ps) = ps.
Proof.
  induction ps as [|[c v] ps IH]; simpl; [reflexivity | now rewrite IH].
Qed.

Lemma length_flat (ps : list (string * string)) :
  List.length (flat ps) = 2 * List.length ps.
Proof.
  induction ps as [|[c v] ps IH]; simpl; [reflexivity | rewrite IH; lia].
Qed.

Lemma flat_app (ps qs : list (string * string)) :
  flat (ps ++ qs) = flat ps ++ flat qs.
Proof.
  induction ps as [|[c v] ps IH]; simpl; [reflexivity | now rewrite IH].
Qed.

(** Every list is its pairs followed by at most one unpaired entry. *)
Lemma pairs_split (l : list string) :
  exists tail, l = flat (pairs l) ++ tail /\
               List.length tail = List.length l mod 2.
Proof.
  assert (forall n l, List.length l <= n ->
            exists tail, l = flat (pairs l) ++ tail /\
                         List.length tail = List.length l mod 2) as H.
  { clear l. induction n as [|n IH]; intros l Hn.
    - destruct l; [|simpl in Hn; lia]. now exists [].
    - destruct l as [|c [|v rest]].
      + now exists [].
      + now exists [c].
      + destruct (IH rest) as [tail [E L]]; [simpl in Hn; lia|].
        exists tail. split.
        * simpl. now rewrite <- E.
        * rewrite L. change (List.length (c :: v :: rest))
            with (2 + List.length rest).
          replace (2 + List.length rest) with (List.length rest + 1 * 2) by lia.
          now rewrite Nat.Div0.mod_add. }
  exact (H (List.length l) l (le_n _)).
Qed.

Lemma even_flat (l : list string) :
  Nat.even (List.length l) = true -> l = flat (pairs l).
Proof.
  intro H. destruct (pairs_split l) as [tail [E L]].
  assert (List.length l mod 2 = 0) as Z.
  { apply Nat.even_spec in H. destruct H as [k ->].
    rewrite Nat.mul_comm. apply Nat.Div0.mod_mul. }
  rewrite Z in L. destruct tail; [|discriminate].
  now rewrite app_nil_r in E.
Qed.

Lemma odd_flat (l : list string) :
  Nat.even (List.length l) = false ->
  exists last, l = flat (pairs l) ++ [last].
Proof.
  intro H. destruct (pairs_split l) as [tail [E L]].
  destruct tail as [|x [|y tail]].
  - exfalso. rewrite app_nil_r in E. rewrite E, length_flat in H.
    rewrite Nat.even_mul in H. discriminate.
  - now exists x.
  - exfalso.
    assert (List.length l mod 2 < 2) as B by (apply Nat.mod_upper_bound; lia).
    rewrite <- L in B. simpl in B. lia.
Qed.

(* ================================================================== *)
(** ** The iteration protocol *)
(* ================================================================== *)

Section Iteration.

Context {A : Type} (body : A -> string * string -> A).

Lemma set_pos_set_pos (n m : nat) (self : Field) :
  set_pos n (set_pos m self) = set_pos n self.
Proof. reflexivity. Qed.

Lemma set_pos_same (n : nat) (self : Field) :
  _Field__pos self = Some n -> set_pos n self = self.
Proof. destruct self; simpl; intros ->; reflexivity. Qed.

(** [next] on a cursor that stands before a complete pair. *)
Lemma next_pair (self : Field) (done rest : list string) (c v : string) :
  subfields self = Some (done ++ c :: v :: rest) ->
  _Field__pos self = Some (List.length done) ->
  next self = Some (Return (c, v), set_pos (List.length done + 2) self).
Proof.
  intros Hs Hp. unfold next, bind, getattr, index, setattr, ret.
  rewrite Hp, Hs.
  assert (Nat.ltb (List.length done) (List.length (done ++ c :: v :: rest))
          = true) as ->.
  { apply Nat.ltb_lt. rewrite length_app. simpl. lia. }
  rewrite nth_error_app2 by lia. rewrite Nat.sub_diag. simpl.
  rewrite nth_error_app2 by lia.
  replace (List.length done + 1 - List.length done) with 1 by lia.
  reflexivity.
Qed.

(** [next] on a cursor at the end of the list. *)
Lemma next_stop (self : Field) (subs : list string) :
  subfields self = Some subs ->
  _Field__pos self = Some (List.length subs) ->
  next self = Some (Raise StopIteration, self).
Proof.
  intros Hs Hp. unfold next, bind, getattr, raise.
  rewrite Hp, Hs. now rewrite Nat.ltb_irrefl.
Qed.

(** [next] on a cursor that stands before an unpaired last entry. *)
Lemma next_unpaired (self : Field) (done : list string) (last : string) :
  subfields self = Some (done ++ [last]) ->
  _Field__pos self = Some (List.length done) ->
  next self = Some (Raise IndexError, self).
Proof.
  intros Hs Hp. unfold next, bind, getattr, index, raise, ret.
  rewrite Hp, Hs.
  assert (Nat.ltb (List.length done) (List.length (done ++ [last])) = true)
    as ->.
  { apply Nat.ltb_lt. rewrite length_app. simpl. lia. }
  rewrite nth_error_app2 by lia. rewrite Nat.sub_diag. simpl.
  rewrite nth_error_app2 by lia.
  replace (List.length done + 1 - List.length done) with 1 by lia.
  reflexivity.
Qed.

(** The loop from a cursor that has consumed [done]: it folds the body
    over the remaining pairs, then stops, or fails on an unpaired entry. *)
Lemma iterate_pairs (ps : list (string * string)) :
  forall (fuel : nat) (acc : A) (self : Field) (done tail : list string),
    subfields self = Some (done ++ flat ps ++ tail) ->
    _Field__pos self = Some (List.length done) ->
    List.length tail <= 1 ->
    List.length ps < fuel ->
    iterate fuel body acc self
    = Some (match tail with
            | [] => Return (fold_left body ps acc)
            | _ => Raise IndexError
            end,
            set_pos (List.length done + 2 * List.length ps) self).
Proof.
  induction ps as [|[c v] ps IH]; intros fuel acc self done tail Hs Hp Ht Hf.
  - destruct fuel as [|fuel]; [simpl in Hf; lia|].
    simpl in Hs. simpl List.length. rewrite Nat.add_0_r.
    rewrite (set_pos_same _ _ Hp).
    destruct tail as [|x [|y tail]]; [| |simpl in Ht; lia].
    + rewrite app_nil_r in Hs. simpl. now rewrite (next_stop self done).
    + simpl. now rewrite (next_unpaired self done x).
  - destruct fuel as [|fuel]; [simpl in Hf; lia|].
    simpl in Hs. simpl iterate.
    rewrite (next_pair self done (flat ps ++ tail) c v Hs Hp).
    rewrite (IH fuel (body acc (c, v)) _ (done ++ [c; v]) tail).
    + rewrite set_pos_set_pos. simpl fold_left.
      rewrite length_app. simpl List.length.
      replace (List.length done + 2 + 2 * List.length ps)
        with (List.length done + 2 * S (List.length ps)) by lia.
      reflexivity.
    + simpl. rewrite Hs. now rewrite <- app_assoc.
    + simpl. rewrite length_app. reflexivity.
    + exact Ht.
    + simpl in Hf. lia.
Qed.

(** [for subfield in self] over pairs and at most one unpaired entry. *)
Lemma for_self_pairs (ps : list (string * string)) (tail : list string)
    (acc : A) (self : Field) :
  subfields self = Some (flat ps ++ tail) ->
  List.length tail <= 1 ->
  for_self body acc self
  = Some (match tail with
          | [] => Return (fold_left body ps acc)
          | _ => Raise IndexError
          end,
          cursor_at (2 * List.length ps) self).
Proof.
  intros Hs Ht. unfold for_self, bind, __iter__, setattr.
  rewrite (iterate_pairs ps _ acc (set_pos 0 self) [] tail).
  - reflexivity.
  - exact Hs.
  - reflexivity.
  - exact Ht.
  - unfold loop_bound. simpl. rewrite Hs.
    rewrite length_app, length_flat. lia.
Qed.

(** A loop over an instance without [subfields] fails on the first
    [next]. *)
Lemma for_self_no_subfields (acc : A) (self : Field) :
  subfields self = None ->
  for_self body acc self
  = Some (Raise (AttributeError "subfields"), set_pos 0 self).
Proof.
  intro Hs. unfold for_self, bind, __iter__, setattr, loop_bound.
  simpl. rewrite Hs. simpl.
  unfold next, bind, getattr. simpl. now rewrite Hs.
Qed.

(** No loop over [self] runs out of its bound. *)
Lemma for_self_terminates (acc : A) (self : Field) :
  exists r self', for_self body acc self = Some (r, self').
Proof.
  destruct (subfields self) as [subs|] eqn:Hs.
  - destruct (pairs_split subs) as [tail [E L]].
    rewrite E in Hs.
    assert (List.length tail <= 1) as Ht.
    { assert (List.length subs mod 2 < 2)
        by (apply Nat.mod_upper_bound; lia).
      lia. }
    rewrite (for_self_pairs _ _ acc self Hs Ht). eauto.
  - rewrite (for_self_no_subfields acc self Hs). eauto.
Qed.

End Iteration.

(* ================================================================== *)
(** ** Construction *)
(* ================================================================== *)

Lemma init_control (t : string) (i s : option (list string)) (d : string) :
  PyStr.str_lt (PyStr.fmt_03s t) "010" = true ->
  __init__ t i s d = Return (set_data d (blank (PyStr.fmt_03s t))) /\
  ControlField d (set_data d (blank (PyStr.fmt_03s t))).
Proof.
  intro H. split.
  - unfold __init__. simpl tag. now rewrite H.
  - constructor; try reflexivity.
    unfold is_control_field. simpl tag. now rewrite H.
Qed.

Lemma init_data (t : string) (s : option (list string)) (d : string)
    (i1 i2 : string) (more : list string) :
  PyStr.str_lt (PyStr.fmt_03s t) "010" = false ->
  exists self,
    __init__ t (Some (i1 :: i2 :: more)) s d = Return self /\
    tag self = PyStr.fmt_03s t /\
    DataField i1 i2 more (or_empty s) self.
Proof.
  intro H. unfold __init__. simpl tag. rewrite H. simpl.
  eexists. split; [reflexivity|]. split; [reflexivity|].
  constructor; try reflexivity.
  unfold is_control_field. simpl tag. now rewrite H.
Qed.

(** What a constructor call that returns has built. *)
Lemma init_returns (t : string) (i s : option (list string)) (d : string)
    (self : Field) :
  __init__ t i s d = Return self ->
  tag self = PyStr.fmt_03s t /\
  (ControlField d self \/
   exists i1 i2 more,
     i = Some (i1 :: i2 :: more) /\ DataField i1 i2 more (or_empty s) self).
Proof.
  intro H. destruct (PyStr.str_lt (PyStr.fmt_03s t) "010") eqn:E.
  - destruct (init_control t i s d E) as [R C].
    rewrite R in H. injection H as <-. split; [reflexivity | now left].
  - destruct i as [[|i1 [|i2 more]]|];
      try (unfold __init__ in H; simpl tag in H; rewrite E in H;
           discriminate H).
    destruct (init_data t s d i1 i2 more E) as [f [R [T D]]].
    rewrite R in H. injection H as <-. split; [exact T|].
    right. now exists i1, i2, more.
Qed.

(** Moving the cursor, which is all a loop does to the instance, keeps
    the variant and what it holds. *)
Lemma cursor_at_control (n : nat) (d : string) (self : Field) :
  ControlField d self -> ControlField d (cursor_at n self).
Proof. intros [? ? ? ? ? ?]. constructor; assumption. Qed.

Lemma cursor_at_data (n : nat) (i1 i2 : string) (more subs : list string)
    (self : Field) :
  DataField i1 i2 more subs self ->
  DataField i1 i2 more subs (cursor_at n self).
Proof. intros [? ? ? ? ?]. constructor; assumption. Qed.

Lemma fmt_03s_short (t : string) :
  String.length t < 3 ->
  exists rest, PyStr.fmt_03s t = String " " rest /\ String.length rest = 2.
Proof.
  intro H. unfold PyStr.fmt_03s.
  destruct t as [|a [|b [|c t]]]; simpl in *; try lia; eexists; split;
    reflexivity.
Qed.

Lemma fmt_03s_wide (t : string) :
  3 <= String.length t -> PyStr.fmt_03s t = t.
Proof.
  intro H. unfold PyStr.fmt_03s.
  replace (3 - String.length t) with 0 by lia. reflexivity.
Qed.

(** C4: [is_control_field] holds exactly when the stored (normalized) tag is
    below ["010"] in the lexicographic order on characters, and
    [is_subject_field] exactly when its first character is ['6']; both are
    functions of the tag alone (two instances with the same tag are
    classified alike, whatever their other attributes or cursor), and the
    stored tag of a constructed field is the normalized constructor
    argument. *)
Theorem classification_by_tag (self : Field) :
  (is_control_field self = true <-> PyStr.lex_lt (tag self) "010") /\
  (is_subject_field self = true <-> exists rest, tag self = String "6" rest) /\
  (forall other, tag other = tag self ->
     is_control_field other = is_control_field self /\
     is_subject_field other = is_subject_field self) /\
  (forall t i s d, __init__ t i s d = Return self ->
     tag self = PyStr.fmt_03s t).
Proof.
  split; [|split; [|split]].
  - unfold is_control_field. rewrite <- PyStrFacts.str_lt_lex.
    destruct (PyStr.str_lt (tag self) "010"); split; congruence.
  - unfold is_subject_field, PyStr.startswith. split.
    + destruct (tag self) as [|c rest]; [discriminate|].
      destruct (Ascii.eqb c "6") eqn:E; [|discriminate].
      apply Ascii.eqb_eq in E. subst c. intros _. now exists rest.
    + intros [rest ->]. reflexivity.
  - intros other H. unfold is_control_field, is_subject_field.
    now rewrite H.
  - intros t i s d H. now apply (init_returns t i s d self).
Qed.

(** The order is textual: [" 99"] and ["00z"] are control fields, ["0A0"]
    and ["010"] are not, and ["650"] is a subject field. *)
Lemma classification_by_tag_witness :
  (PyStr.lex_lt " 99" "010" /\ is_control_field (blank " 99") = true) /\
  is_control_field (blank "00z") = true /\
  is_control_field (blank "0A0") = false /\
  is_control_field (blank "010") = false /\
  is_subject_field field_650_cats = true /\
  is_control_field field_650_cats = is_control_field (blank "650").
Proof.
  split; [split|].
  - apply (proj1 (classification_by_tag (blank " 99"))). reflexivity.
  - reflexivity.
  - do 4 (split; [reflexivity|]).
    apply (proj1 (proj2 (proj2 (classification_by_tag (blank "650"))))).
    reflexivity.
Defined.

(** C6: when the normalized tag is not below ["010"] and the indicator list
    has fewer than two entries (the default, no list at all, included), the
    constructor call raises [IndexError]; it returns no instance. *)
Theorem init_short_indicators (t : string) (i s : option (list string))
    (d : string) :
  PyStr.str_lt (PyStr.fmt_03s t) "010" = false ->
  List.length (or_empty i) < 2 ->
  __init__ t i s d = Raise IndexError /\
  forall self, __init__ t i s d <> Return self.
Proof.
  intros H L.
  assert (__init__ t i s d = Raise IndexError) as R.
  { unfold __init__. simpl tag. rewrite H.
    destruct i as [[|i1 [|i2 more]]|]; simpl in L; try lia; reflexivity. }
  split; [exact R|]. intros self E. rewrite R in E. discriminate.
Qed.

Lemma init_short_indicators_witness :
  __init__ "245" (Some ["0"]) (Some ["a"; "Hi"]) "" = Raise IndexError /\
  __init__ "245" None None "" = Raise IndexError.
Proof.
  split.
  - apply (init_short_indicators "245" (Some ["0"]) (Some ["a"; "Hi"]) "");
      [reflexivity | simpl; lia].
  - apply (init_short_indicators "245" None None "");
      [reflexivity | simpl; lia].
Defined.

(** C9: a tag argument shorter than three characters is padded on the left
    with spaces to width three; the padded tag starts with a space, so it is
    below ["010"] and the constructor builds a control field that holds
    [data] and none of the indicators or subfields passed. *)
Theorem short_tag_is_control (t : string) (i s : option (list string))
    (d : string) :
  String.length t < 3 ->
  let padded := (PyStr.spaces (3 - String.length t) ++ t)%string in
  String.length padded = 3 /\
  PyStr.lex_lt padded "010" /\
  __init__ t i s d = Return (mkField padded (Some d) None None None None None) /\
  is_control_field (mkField padded (Some d) None None None None None) = true.
Proof.
  intros H padded.
  assert (PyStr.str_lt padded "010" = true) as L.
  { destruct (fmt_03s_short t H) as [rest [E _]].
    unfold padded. unfold PyStr.fmt_03s in E. rewrite E. reflexivity. }
  repeat split.
  - unfold padded. rewrite PyStrFacts.length_append, PyStrFacts.length_spaces.
    lia.
  - now apply PyStrFacts.str_lt_lex.
  - now destruct (init_control t i s d L) as [R _].
  - unfold is_control_field. simpl tag. now rewrite L.
Qed.

Lemma short_tag_is_control_witness :
  __init__ "1" (Some ["0"; "1"]) (Some ["a"; "Hi"]) "x"
  = Return (mkField "  1" (Some "x") None None None None None).
Proof.
  apply (short_tag_is_control "1" (Some ["0"; "1"]) (Some ["a"; "Hi"]) "x").
  simpl. lia.
Defined.

(* ================================================================== *)
(** ** Loops over a data field *)
(* ================================================================== *)

Section Loops.

Context {A : Type} (body : A -> string * string -> A).

(** Over an even list the loop folds its body over every pair and leaves
    the cursor at the end. *)
Lemma for_self_even (acc : A) (self : Field) (subs : list string) :
  subfields self = Some subs ->
  Nat.even (List.length subs) = true ->
  for_self body acc self
  = Some (Return (fold_left body (pairs subs) acc),
          cursor_at (List.length subs) self).
Proof.
  intros Hs He. pose proof (even_flat subs He) as E.
  assert (subfields self = Some (flat (pairs subs) ++ [])) as Hs'
    by (now rewrite app_nil_r, <- E).
  rewrite (for_self_pairs body (pairs subs) [] acc self Hs' (Nat.le_0_l 1)).
  rewrite <- length_flat, <- E. reflexivity.
Qed.

(** Over an odd list the loop raises [IndexError] with the cursor on the
    unpaired entry. *)
Lemma for_self_odd (acc : A) (self : Field) (subs : list string) :
  subfields self = Some subs ->
  Nat.even (List.length subs) = false ->
  for_self body acc self
  = Some (Raise IndexError, cursor_at (List.length subs - 1) self).
Proof.
  intros Hs He. destruct (odd_flat subs He) as [last E].
  assert (subfields self = Some (flat (pairs subs) ++ [last])) as Hs'
    by (now rewrite <- E).
  rewrite (for_self_pairs body (pairs subs) [last] acc self Hs' (le_n 1)).
  replace (List.length subs - 1) with (2 * List.length (pairs subs));
    [reflexivity|].
  rewrite E at 2. rewrite length_app, length_flat. simpl. lia.
Qed.

End Loops.

Lemma fold_left_ext {A B} (f g : A -> B -> A) (l : list B) (a : A) :
  (forall a x, f a x = g a x) -> fold_left f l a = fold_left g l a.
Proof.
  intro H. revert a; induction l as [|x l IH]; intro a; simpl;
    [reflexivity | now rewrite H, IH].
Qed.

(** The body of [format_field]'s loop adds [pretty_piece]. *)
Lemma pretty_body (subject : bool) (fielddata : string) (p : string * string) :
  (if negb subject then fielddata ++ " " ++ snd p
   else if negb (PyStr.in_tuple (fst p) ["v"; "x"; "y"; "z"])
        then fielddata ++ " " ++ snd p
        else fielddata ++ " -- " ++ snd p)%string
  = (fielddata ++ pretty_piece subject p)%string.
Proof.
  unfold pretty_piece.
  destruct subject, (PyStr.in_tuple (fst p) ["v"; "x"; "y"; "z"]);
    reflexivity.
Qed.

Lemma fold_pretty (subject : bool) (ps : list (string * string))
    (acc : string) :
  fold_left (fun fielddata subfield =>
               if negb subject then fielddata ++ " " ++ snd subfield
               else if negb (PyStr.in_tuple (fst subfield)
                               ["v"; "x"; "y"; "z"])
                    then fielddata ++ " " ++ snd subfield
                    else fielddata ++ " -- " ++ snd subfield)%string
            ps acc
  = (acc ++ PyStr.join (map (pretty_piece subject) ps))%string.
Proof.
  rewrite <- PyStrFacts.fold_append.
  apply fold_left_ext. intros fielddata p. apply pretty_body.
Qed.

(** The indicator loop of [__str__] adds [mnemonic_indicator]. *)
Lemma fold_indicators (inds : list string) (text : string) :
  fold_left (fun text indicator =>
               if PyStr.in_tuple indicator [" "; "\"]
               then text ++ "\" else text ++ indicator)%string
            inds text
  = (text ++ PyStr.join (map mnemonic_indicator inds))%string.
Proof.
  rewrite <- PyStrFacts.fold_append.
  apply fold_left_ext. intros t i.
  unfold mnemonic_indicator, PyStr.in_tuple. simpl existsb.
  rewrite orb_false_r.
  now destruct (String.eqb i " " || String.eqb i "\").
Qed.

(** C3: [value()] of a control field constructed with the data string [d]
    returns [d]; [value()] of a data field whose stored list has even length
    returns the values of its subfields joined in stored order with nothing
    between them. *)
Theorem value_plain (self : Field) :
  (forall t i s d,
     __init__ t i s d = Return self -> is_control_field self = true ->
     value self = Some (Return d, self)) /\
  (forall i1 i2 more subs,
     DataField i1 i2 more subs self ->
     Nat.even (List.length subs) = true ->
     value self
     = Some (Return (PyStr.join (map snd (pairs subs))),
             cursor_at (List.length subs) self)).
Proof.
  split.
  - intros t i s d Hi Hc.
    destruct (init_returns t i s d self Hi) as [_ [C | [i1 [i2 [more [_ D]]]]]].
    + unfold value, getattr. now rewrite Hc, (cf_data _ _ C).
    + rewrite (df_tag _ _ _ _ _ D) in Hc. discriminate.
  - intros i1 i2 more subs D He. unfold value.
    rewrite (df_tag _ _ _ _ _ D).
    rewrite (for_self_even _ _ self subs (df_subfields _ _ _ _ _ D) He).
    now rewrite (PyStrFacts.fold_append snd).
Qed.

Lemma value_plain_witness :
  value field_001 = Some (Return "fol123", field_001) /\
  value field_245_xy = Some (Return "XY", cursor_at 4 field_245_xy).
Proof.
  split.
  - apply (proj1 (value_plain field_001) "001" None None "fol123");
      reflexivity.
  - apply (proj2 (value_plain field_245_xy) "0" "1" [] ["a"; "X"; "b"; "Y"]);
      [constructor; reflexivity | reflexivity].
Defined.

(* ================================================================== *)
(** ** Serializers *)
(* ================================================================== *)

(** C1, as the code has it: [as_marc21()] of a control field is its data
    followed by the field terminator and nothing else; of a data field
    (with a paired subfield list) it is indicator1, indicator2, then for
    every subfield in stored order the subfield delimiter, the code and the
    value, then the field terminator, with nothing in between.  Each
    indicator is written as the string it is, whatever its length: the
    constructor stores the first two entries it is given unchanged, and
    nothing pads or cuts them; an indicator is one character of the output
    exactly when it is a one-character string, and then it is that
    character. *)
Theorem as_marc21_wire (SUBFIELD_INDICATOR END_OF_FIELD : string)
    (self : Field) :
  (forall d, ControlField d self ->
     as_marc21 SUBFIELD_INDICATOR END_OF_FIELD self
     = Some (Return (d ++ END_OF_FIELD)%string, self)) /\
  (forall i1 i2 more subs,
     DataField i1 i2 more subs self ->
     Nat.even (List.length subs) = true ->
     as_marc21 SUBFIELD_INDICATOR END_OF_FIELD self
     = Some (Return (i1 ++ i2
                     ++ PyStr.join
                          (map (fun p => SUBFIELD_INDICATOR ++ fst p ++ snd p)
                               (pairs subs))
                     ++ END_OF_FIELD)%string,
             cursor_at (List.length subs) self)) /\
  (forall a b more subs,
     DataField (String a "") (String b "") more subs self ->
     Nat.even (List.length subs) = true ->
     as_marc21 SUBFIELD_INDICATOR END_OF_FIELD self
     = Some (Return (String a (String b
                       (PyStr.join
                          (map (fun p => SUBFIELD_INDICATOR ++ fst p ++ snd p)
                               (pairs subs))
                        ++ END_OF_FIELD)))%string,
             cursor_at (List.length subs) self)) /\
  (forall t s d i1 i2 more,
     PyStr.str_lt (PyStr.fmt_03s t) "010" = false ->
     Nat.even (List.length (or_empty s)) = true ->
     exists built,
       __init__ t (Some (i1 :: i2 :: more)) s d = Return built /\
       indicator1 built = Some i1 /\ indicator2 built = Some i2 /\
       exists rest,
         as_marc21 SUBFIELD_INDICATOR END_OF_FIELD built
         = Some (Return (i1 ++ i2 ++ rest)%string,
                 cursor_at (List.length (or_empty s)) built) /\
         rest = (PyStr.join
                   (map (fun p => SUBFIELD_INDICATOR ++ fst p ++ snd p)
                        (pairs (or_empty s)))
                 ++ END_OF_FIELD)%string).
Proof.
  assert (forall self i1 i2 more subs,
     DataField i1 i2 more subs self ->
     Nat.even (List.length subs) = true ->
     as_marc21 SUBFIELD_INDICATOR END_OF_FIELD self
     = Some (Return (i1 ++ i2
                     ++ PyStr.join
                          (map (fun p => SUBFIELD_INDICATOR ++ fst p ++ snd p)
                               (pairs subs))
                     ++ END_OF_FIELD)%string,
             cursor_at (List.length subs) self)) as Hdata.
  { clear self. intros self i1 i2 more subs D He. unfold as_marc21.
    rewrite (df_tag _ _ _ _ _ D). unfold bind at 1 2, getattr.
    rewrite (df_indicator1 _ _ _ _ _ D), (df_indicator2 _ _ _ _ _ D).
    unfold bind.
    rewrite (for_self_even _ _ self subs (df_subfields _ _ _ _ _ D) He).
    unfold ret. do 3 f_equal.
    rewrite (PyStrFacts.fold_append
               (fun p => (SUBFIELD_INDICATOR ++ fst p) ++ snd p)%string).
    rewrite (map_ext _ (fun p => SUBFIELD_INDICATOR ++ fst p ++ snd p)%string)
      by (intro p; apply PyStrFacts.append_assoc).
    now rewrite !PyStrFacts.append_assoc. }
  split; [|split; [|split]].
  - intros d C. unfold as_marc21, bind, getattr, ret.
    now rewrite (cf_tag _ _ C), (cf_data _ _ C).
  - exact (Hdata self).
  - intros a b more subs D He. now rewrite (Hdata _ _ _ _ _ D He).
  - intros t s d i1 i2 more Ht He.
    destruct (init_data t s d i1 i2 more Ht) as [built [R [_ D]]].
    exists built. split; [exact R|].
    split; [exact (df_indicator1 _ _ _ _ _ D)|].
    split; [exact (df_indicator2 _ _ _ _ _ D)|].
    eexists. split; [|reflexivity].
    exact (Hdata built _ _ _ _ D He).
Qed.

(** [Field('001', data='fol123')] and
    [Field('245', ['0','1'], ['a','Hi'])] with the MARC 21 bytes. *)
Lemma as_marc21_wire_witness :
  as_marc21 US RS field_001 = Some (Return ("fol123" ++ RS)%string, field_001) /\
  as_marc21 US RS field_245
  = Some (Return ("01" ++ US ++ "aHi" ++ RS)%string, cursor_at 2 field_245).
Proof.
  split.
  - apply (proj1 (as_marc21_wire US RS field_001) "fol123").
    constructor; reflexivity.
  - apply (proj1 (proj2 (as_marc21_wire US RS field_245))
             "0" "1" [] ["a"; "Hi"]).
    + constructor; reflexivity.
    + reflexivity.
Defined.

(** C1 as stated fails: [Field('245', ['', ''], ['a', 'Hi'])] is built by
    the constructor, and its [as_marc21()] starts with the subfield
    delimiter, with no character for either indicator;
    [Field('245', ['10', '2'], ['a', 'Hi'])] gives three characters for
    the two indicators. *)
Lemma as_marc21_indicator_not_one_character :
  __init__ "245" (Some [""; ""]) (Some ["a"; "Hi"]) ""
  = Return (data_field "245" "" "" ["a"; "Hi"]) /\
  as_marc21 US RS (data_field "245" "" "" ["a"; "Hi"])
  = Some (Return (US ++ "aHi" ++ RS)%string,
          cursor_at 2 (data_field "245" "" "" ["a"; "Hi"])) /\
  ~ (exists a b self',
       as_marc21 US RS (data_field "245" "" "" ["a"; "Hi"])
       = Some (Return (String a (String b (US ++ "aHi" ++ RS)))%string,
               self')) /\
  as_marc21 US RS (data_field "245" "10" "2" ["a"; "Hi"])
  = Some (Return ("102" ++ US ++ "aHi" ++ RS)%string,
          cursor_at 2 (data_field "245" "10" "2" ["a"; "Hi"])).
Proof.
  split; [reflexivity|]. split; [reflexivity|]. split; [|reflexivity].
  intros [a [b [self' H]]]. vm_compute in H.
  injection H as _ _ H _. discriminate H.
Qed.

(** C5: the MARCMaker text starts with ['='], the stored tag and two
    spaces.  For a control field the data follow with every space replaced
    by a backslash (same length, every other character kept); for a data
    field (with a paired subfield list) every entry of the indicator list
    follows as it is, a space or a backslash as one backslash, and then for
    every subfield in stored order ['$'], the code and the value, with
    nothing in between. *)
Theorem str_marcmaker (self : Field) :
  (forall d, ControlField d self ->
     __str__ self
     = Some (Return ("=" ++ tag self ++ "  " ++ PyStr.replace " " "\" d)%string,
             self) /\
     String.length (PyStr.replace " " "\" d) = String.length d /\
     forall n, String.get n (PyStr.replace " " "\" d)
               = option_map (fun c => if Ascii.eqb c " " then "\"%char else c)
                            (String.get n d)) /\
  (forall i1 i2 more subs,
     DataField i1 i2 more subs self ->
     Nat.even (List.length subs) = true ->
     __str__ self
     = Some (Return ("=" ++ tag self ++ "  "
                     ++ PyStr.join (map mnemonic_indicator (i1 :: i2 :: more))
                     ++ PyStr.join (map (fun p => "$" ++ fst p ++ snd p)
                                        (pairs subs)))%string,
             cursor_at (List.length subs) self)) /\
  (forall i, (i = " " \/ i = "\" -> mnemonic_indicator i = "\") /\
             (i <> " " -> i <> "\" -> mnemonic_indicator i = i)).
Proof.
  split; [|split].
  - intros d C. split; [|split].
    + unfold __str__, bind, getattr, ret.
      now rewrite (cf_tag _ _ C), (cf_data _ _ C).
    + apply PyStrFacts.replace_length.
    + intro n. apply PyStrFacts.replace_get.
  - intros i1 i2 more subs D He. unfold __str__.
    rewrite (df_tag _ _ _ _ _ D). unfold bind, getattr.
    rewrite (df_indicators _ _ _ _ _ D).
    rewrite (for_self_even _ _ self subs (df_subfields _ _ _ _ _ D) He).
    do 3 f_equal.
    rewrite (PyStrFacts.fold_append (fun p => "$" ++ fst p ++ snd p)%string).
    rewrite fold_indicators.
    now rewrite !PyStrFacts.append_assoc.
  - intro i. unfold mnemonic_indicator. split.
    + intros [-> | ->]; reflexivity.
    + intros H1 H2.
      destruct (String.eqb_spec i " "); [contradiction|].
      destruct (String.eqb_spec i "\"); [contradiction|]. reflexivity.
Qed.

(** [Field('008', data='a b')] and [Field('100', [' ',' '], ['a','Hunt'])]. *)
Lemma str_marcmaker_witness :
  __str__ field_008 = Some (Return "=008  a\b", field_008) /\
  __str__ field_100 = Some (Return "=100  \\$aHunt", cursor_at 2 field_100).
Proof.
  split.
  - apply (proj1 (str_marcmaker field_008) "a b").
    constructor; reflexivity.
  - apply (proj1 (proj2 (str_marcmaker field_100)) " " " " [] ["a"; "Hunt"]).
    + constructor; reflexivity.
    + reflexivity.
Defined.

(* ================================================================== *)
(** ** [strip] removes the blank edges and nothing else *)
(* ================================================================== *)

Module StripFacts.
Import PyStr.

Lemma all_space_append (a b : string) :
  all_space (a ++ b) = all_space a && all_space b.
Proof.
  induction a as [|c a IH]; simpl; [reflexivity|].
  now rewrite IH, andb_assoc.
Qed.

Lemma lstrip_edge (s : string) :
  exists l, s = (l ++ lstrip s)%string /\ all_space l = true /\
            starts_blank (lstrip s) = false.
Proof.
  induction s as [|c s [l [E [L B]]]]; simpl.
  - now exists ""%string.
  - destruct (isspace c) eqn:C.
    + exists (String c l). simpl. rewrite C, L. repeat split; try assumption.
      now rewrite <- E.
    + exists ""%string. simpl. now rewrite C.
Qed.

Lemma ends_blank_cons (c : ascii) (s : string) :
  s <> ""%string -> ends_blank (String c s) = ends_blank s.
Proof. destruct s; [congruence | reflexivity]. Qed.

Lemma rstrip_edge (s : string) :
  exists r, s = (rstrip s ++ r)%string /\ all_space r = true /\
            ends_blank (rstrip s) = false.
Proof.
  induction s as [|c s [r [E [R B]]]].
  - now exists ""%string.
  - rewrite PyStrFacts.rstrip_cons. destruct (all_space s) eqn:S.
    + destruct (isspace c) eqn:C.
      * exists (String c s). simpl. now rewrite C, S.
      * exists s. simpl. now rewrite C.
    + exists r. simpl. rewrite <- E. repeat split; try assumption.
      destruct (rstrip s) eqn:T; [|exact B].
      assert (all_space s = true) by now apply PyStrFacts.rstrip_empty_iff.
      congruence.
Qed.

Lemma rstrip_head (s : string) :
  starts_blank s = false -> starts_blank (rstrip s) = false.
Proof.
  destruct s as [|c s]; [reflexivity|]. intro H.
  rewrite PyStrFacts.rstrip_cons. simpl in H.
  destruct (all_space s); [|exact H]. now rewrite H.
Qed.

(** [s] is [strip s] between two blank edges, and [strip s] neither starts
    nor ends with a blank: the inside of the string is kept as it is. *)
Lemma strip_edges (s : string) :
  exists l r, s = (l ++ strip s ++ r)%string /\
              all_space l = true /\ all_space r = true /\
              starts_blank (strip s) = false /\ ends_blank (strip s) = false.
Proof.
  destruct (lstrip_edge s) as [l [El [L Bl]]].
  destruct (rstrip_edge (lstrip s)) as [r [Er [R Br]]].
  exists l, r. unfold strip. repeat split; try assumption.
  - now rewrite <- Er.
  - now apply rstrip_head.
Qed.


End StripFacts.

(* ================================================================== *)
(** ** Pretty-printing *)
(* ================================================================== *)

(** [format_field] on a data field with a paired list. *)
Lemma format_field_data (self : Field) (i1 i2 : string)
    (more subs : list string) :
  DataField i1 i2 more subs self ->
  Nat.even (List.length subs) = true ->
  format_field self
  = Some (Return (PyStr.strip
                    (PyStr.join (map (pretty_piece (is_subject_field self))
                                     (pairs subs)))),
          cursor_at (List.length subs) self).
Proof.
  intros D He. unfold format_field. rewrite (df_tag _ _ _ _ _ D).
  unfold bind.
  rewrite (for_self_even _ _ self subs (df_subfields _ _ _ _ _ D) He).
  now rewrite fold_pretty.
Qed.

(** C2: [format_field()] of a control field equals [value()] (the data);
    of a data field (with a paired subfield list) it is the strip of the
    text that collects, for every subfield in stored order, a space and the
    value, or [" -- "] and the value when the field is a subject field and
    the code is one of v, x, y, z.  The strip is applied once to the whole
    text and removes blank edges only. *)
Theorem format_field_pretty (self : Field) :
  (forall d, ControlField d self ->
     format_field self = value self /\
     format_field self = Some (Return d, self)) /\
  (forall i1 i2 more subs,
     DataField i1 i2 more subs self ->
     Nat.even (List.length subs) = true ->
     let text :=
       PyStr.join (map (pretty_piece (is_subject_field self)) (pairs subs)) in
     format_field self
     = Some (Return (PyStr.strip text), cursor_at (List.length subs) self) /\
     exists l r,
       text = (l ++ PyStr.strip text ++ r)%string /\
       PyStr.all_space l = true /\ PyStr.all_space r = true /\
       PyStr.starts_blank (PyStr.strip text) = false /\
       PyStr.ends_blank (PyStr.strip text) = false) /\
  (forall p,
     pretty_piece (is_subject_field self) p
     = if is_subject_field self
          && (String.eqb (fst p) "v" || String.eqb (fst p) "x"
              || String.eqb (fst p) "y" || String.eqb (fst p) "z")
       then (" -- " ++ snd p)%string else (" " ++ snd p)%string).
Proof.
  split; [|split].
  - intros d C. unfold format_field, value, getattr.
    now rewrite (cf_tag _ _ C), (cf_data _ _ C).
  - intros i1 i2 more subs D He text. split.
    + now apply (format_field_data self i1 i2 more).
    + apply StripFacts.strip_edges.
  - intro p. unfold pretty_piece, PyStr.in_tuple. simpl existsb.
    now rewrite orb_false_r, !orb_assoc.
Qed.

(** The examples of the two join rules, and a control field. *)
Lemma format_field_pretty_witness :
  format_field field_650_cats
  = Some (Return "Cats -- Fiction", cursor_at 4 field_650_cats) /\
  format_field field_245_cats
  = Some (Return "Cats Fiction", cursor_at 4 field_245_cats) /\
  format_field field_001 = value field_001.
Proof.
  split; [|split].
  - apply (proj1 (proj2 (format_field_pretty field_650_cats))
             " " " " [] ["a"; "Cats"; "v"; "Fiction"]).
    + constructor; reflexivity.
    + reflexivity.
  - apply (proj1 (proj2 (format_field_pretty field_245_cats))
             " " " " [] ["a"; "Cats"; "v"; "Fiction"]).
    + constructor; reflexivity.
    + reflexivity.
  - apply (proj1 (format_field_pretty field_001) "fol123").
    constructor; reflexivity.
Defined.




(* ================================================================== *)
(** ** A list with an unpaired last entry *)
(* ================================================================== *)

(** [next] yields the [k]-th pair when the cursor stands before it. *)
Lemma next_at_pair (self : Field) (subs : list string) (k : nat)
    (p : string * string) :
  subfields self = Some subs ->
  nth_error (pairs subs) k = Some p ->
  next (cursor_at (2 * k) self) = Some (Return p, cursor_at (2 * k + 2) self).
Proof.
  intros Hs Hk. destruct (pairs_split subs) as [tail [E _]].
  destruct (nth_error_split _ _ Hk) as [ps1 [ps2 [Ep Lk]]].
  rewrite Ep, flat_app in E. destruct p as [c v]. simpl flat in E.
  rewrite <- app_assoc in E. simpl in E.
  assert (List.length (flat ps1) = 2 * k) as L
    by (rewrite length_flat; lia).
  unfold cursor_at.
  rewrite (next_pair (set_pos (2 * k) self) (flat ps1)
             (flat ps2 ++ tail) c v).
  - rewrite L. reflexivity.
  - simpl subfields. now rewrite Hs, E.
  - simpl. now rewrite L.
Qed.

(** C7, as the code has it: on a data field whose stored list has odd
    length, a loop over the field yields every complete pair and then
    raises [IndexError], Python's error for any index out of range, when
    [next] reads the entry after the unpaired one; the cursor stays on the
    unpaired entry.  So do [value()], [get_subfields()], [as_marc21()],
    [format_field()] and the text rendering: none of them returns a result
    that leaves the last entry out. *)
Theorem odd_subfields_raise_IndexError (SUBFIELD_INDICATOR END_OF_FIELD : string)
    (self : Field) (i1 i2 : string) (more subs : list string) :
  DataField i1 i2 more subs self ->
  Nat.even (List.length subs) = false ->
  let stuck := cursor_at (List.length subs - 1) self in
  (forall k p, nth_error (pairs subs) k = Some p ->
     next (cursor_at (2 * k) self)
     = Some (Return p, cursor_at (2 * k + 2) self)) /\
  List.length subs - 1 = 2 * List.length (pairs subs) /\
  next stuck = Some (Raise IndexError, stuck) /\
  (forall (A : Type) (body : A -> string * string -> A) (acc : A),
     for_self body acc self = Some (Raise IndexError, stuck)) /\
  value self = Some (Raise IndexError, stuck) /\
  (forall codes, get_subfields codes self = Some (Raise IndexError, stuck)) /\
  as_marc21 SUBFIELD_INDICATOR END_OF_FIELD self
  = Some (Raise IndexError, stuck) /\
  format_field self = Some (Raise IndexError, stuck) /\
  __str__ self = Some (Raise IndexError, stuck).
Proof.
  intros D He stuck.
  pose proof (df_subfields _ _ _ _ _ D) as Hs.
  pose proof (df_tag _ _ _ _ _ D) as Ht.
  destruct (odd_flat subs He) as [last E].
  assert (List.length subs - 1 = 2 * List.length (pairs subs)) as L.
  { rewrite E at 1. rewrite length_app, length_flat. simpl. lia. }
  split; [|split; [|split; [|split; [|split; [|split; [|split; [|split]]]]]]].
  - intros k p Hk. now apply (next_at_pair self subs).
  - exact L.
  - unfold stuck, cursor_at.
    apply (next_unpaired _ (flat (pairs subs)) last).
    + simpl subfields. now rewrite Hs, <- E.
    + simpl. now rewrite L, length_flat.
  - intros A body acc. now apply for_self_odd.
  - unfold value. rewrite Ht. now apply for_self_odd.
  - intro codes. unfold get_subfields. now apply for_self_odd.
  - unfold as_marc21. rewrite Ht. unfold bind at 1 2, getattr.
    rewrite (df_indicator1 _ _ _ _ _ D), (df_indicator2 _ _ _ _ _ D).
    unfold bind. now rewrite (for_self_odd _ _ self subs Hs He).
  - unfold format_field. rewrite Ht. unfold bind.
    now rewrite (for_self_odd _ _ self subs Hs He).
  - unfold __str__. rewrite Ht. unfold bind, getattr.
    rewrite (df_indicators _ _ _ _ _ D).
    now apply for_self_odd.
Qed.

(** [Field('245', ['0','1'], ['a', 'X', 'b'])] *)
Lemma odd_subfields_raise_IndexError_witness :
  value field_245_odd = Some (Raise IndexError, cursor_at 2 field_245_odd) /\
  as_marc21 US RS field_245_odd
  = Some (Raise IndexError, cursor_at 2 field_245_odd).
Proof.
  assert (DataField "0" "1" [] ["a"; "X"; "b"] field_245_odd) as D
    by (constructor; reflexivity).
  split.
  - apply (odd_subfields_raise_IndexError US RS field_245_odd
             "0" "1" [] ["a"; "X"; "b"] D eq_refl).
  - apply (odd_subfields_raise_IndexError US RS field_245_odd
             "0" "1" [] ["a"; "X"; "b"] D eq_refl).
Defined.

(** C7 as stated fails: the error raised on
    [Field('245', ['0','1'], ['a', 'X', 'b'])] is [IndexError] itself, the
    out-of-range error, and no other. *)
Lemma odd_subfields_error_is_generic :
  value field_245_odd = Some (Raise IndexError, cursor_at 2 field_245_odd) /\
  ~ (exists e self',
       value field_245_odd = Some (Raise e, self') /\ e <> IndexError).
Proof.
  split; [reflexivity|].
  intros [e [self' [H N]]]. vm_compute in H.
  injection H as <- _. now apply N.
Qed.

(* ================================================================== *)
(** ** Appending a subfield *)
(* ================================================================== *)

Lemma pairs_flat_tail (ps : list (string * string)) (tail : list string) :
  List.length tail <= 1 -> pairs (flat ps ++ tail) = ps.
Proof.
  intro H. induction ps as [|[c v] ps IH]; simpl.
  - destruct tail as [|x [|y tail]]; simpl in *; [reflexivity..|lia].
  - now rewrite IH.
Qed.

Lemma pairs_snoc (subs : list string) (code val : string) :
  Nat.even (List.length subs) = true ->
  pairs (subs ++ [code; val]) = pairs subs ++ [(code, val)].
Proof.
  intro H. rewrite (even_flat subs H) at 1.
  change [code; val] with (flat [(code, val)]).
  rewrite <- flat_app. apply pairs_flat.
Qed.

Lemma pair_count_snoc (subs : list string) (code val : string) :
  pair_count (subs ++ [code; val]) = pair_count subs + 1.
Proof.
  unfold pair_count. destruct (pairs_split subs) as [tail [E L]].
  assert (List.length subs mod 2 < 2) as B
    by (apply Nat.mod_upper_bound; lia).
  rewrite E at 1. rewrite <- app_assoc.
  destruct tail as [|x [|y tail]];
    [| |rewrite <- L in B; simpl in B; lia].
  - change ([] ++ [code; val]) with (flat [(code, val)] ++ []).
    rewrite app_assoc, <- flat_app, pairs_flat_tail by (simpl; lia).
    now rewrite length_app.
  - change ([x] ++ [code; val]) with (flat [(x, code)] ++ [val]).
    rewrite app_assoc, <- flat_app, pairs_flat_tail by (simpl; lia).
    now rewrite length_app.
Qed.

(** C8, as the code has it: [add_subfield] on a control field fails with
    the interpreter's [AttributeError] for [subfields], which the control
    variant never sets (the method has no check of its own), and leaves the
    field as it was; on a data field it returns, having appended the code
    and the value at the end of the stored list: the first entries are the
    old list, the pair count grows by one, and on a paired list the pairs
    are the old pairs followed by (code, value). *)
Theorem add_subfield_appends (code val : string) (self : Field) :
  (forall d, ControlField d self ->
     add_subfield code val self
     = Some (Raise (AttributeError "subfields"), self)) /\
  (forall i1 i2 more subs,
     DataField i1 i2 more subs self ->
     let self' := set_subfields (subs ++ [code; val]) self in
     add_subfield code val self = Some (Return tt, self') /\
     DataField i1 i2 more (subs ++ [code; val]) self' /\
     pair_count (subs ++ [code; val]) = pair_count subs + 1 /\
     firstn (List.length subs) (subs ++ [code; val]) = subs /\
     skipn (List.length subs) (subs ++ [code; val]) = [code; val] /\
     (Nat.even (List.length subs) = true ->
      pairs (subs ++ [code; val]) = pairs subs ++ [(code, val)])).
Proof.
  split.
  - intros d C. unfold add_subfield, bind, getattr.
    now rewrite (cf_subfields _ _ C).
  - intros i1 i2 more subs D self'.
    split; [|split; [|split; [|split; [|split]]]].
    + unfold add_subfield, bind, getattr, setattr.
      rewrite (df_subfields _ _ _ _ _ D). simpl.
      unfold self'. now rewrite <- app_assoc.
    + destruct D. constructor; assumption || reflexivity.
    + apply pair_count_snoc.
    + rewrite firstn_app, Nat.sub_diag, firstn_all. simpl.
      apply app_nil_r.
    + rewrite skipn_app, Nat.sub_diag, skipn_all. reflexivity.
    + apply pairs_snoc.
Qed.

(** [add_subfield('u', 'http://x')] on [Field('001', data='fol123')] and on
    [Field('245', ['0','1'], ['a','X','b','Y'])]. *)
Lemma add_subfield_appends_witness :
  add_subfield "u" "http://x" field_001
  = Some (Raise (AttributeError "subfields"), field_001) /\
  add_subfield "u" "http://x" field_245_xy
  = Some (Return tt,
          data_field "245" "0" "1" ["a"; "X"; "b"; "Y"; "u"; "http://x"]).
Proof.
  split.
  - apply (proj1 (add_subfield_appends "u" "http://x" field_001) "fol123").
    constructor; reflexivity.
  - apply (proj2 (add_subfield_appends "u" "http://x" field_245_xy)
             "0" "1" [] ["a"; "X"; "b"; "Y"]).
    constructor; reflexivity.
Defined.

(** C8 as stated fails: [add_subfield('u', 'http://x')] on
    [Field('001', data='fol123')] does not return, so it is no no-op, and
    the error it ends with is the [AttributeError] of the failed lookup of
    [subfields], not an error by which the method reports the variant. *)
Lemma add_subfield_control_attribute_error :
  ControlField "fol123" field_001 /\
  add_subfield "u" "http://x" field_001
  = Some (Raise (AttributeError "subfields"), field_001) /\
  ~ (add_subfield "u" "http://x" field_001 = Some (Return tt, field_001) \/
     exists e self',
       add_subfield "u" "http://x" field_001 = Some (Raise e, self') /\
       raised_by_interpreter e = false).
Proof.
  split; [constructor; reflexivity|]. split; [reflexivity|].
  intros [H | [e [self' [H N]]]]; vm_compute in H.
  - discriminate H.
  - injection H as <- _. discriminate N.
Qed.

(* ================================================================== *)
(** ** Lookup by subfield code *)
(* ================================================================== *)

Lemma in_tuple_In (x : string) (t : list string) :
  PyStr.in_tuple x t = true <-> In x t.
Proof.
  unfold PyStr.in_tuple. rewrite existsb_exists. split.
  - intros [y [Hy E]]. apply String.eqb_eq in E. now subst.
  - intro H. exists x. split; [exact H | apply String.eqb_refl].
Qed.

Lemma fold_selected (codes : list string) (ps : list (string * string))
    (acc : list string) :
  fold_left (fun values subfield =>
               if PyStr.in_tuple (fst subfield) codes
               then values ++ [snd subfield] else values)
            ps acc
  = acc ++ selected codes ps.
Proof.
  unfold selected. revert acc; induction ps as [|p ps IH]; intro acc; simpl.
  - now rewrite app_nil_r.
  - rewrite IH. destruct (PyStr.in_tuple (fst p) codes); simpl.
    + now rewrite <- app_assoc.
    + reflexivity.
Qed.

(** [get_subfields] on a data field with a paired list. *)
Lemma get_subfields_data (codes : list string) (self : Field)
    (i1 i2 : string) (more subs : list string) :
  DataField i1 i2 more subs self ->
  Nat.even (List.length subs) = true ->
  get_subfields codes self
  = Some (Return (selected codes (pairs subs)),
          cursor_at (List.length subs) self).
Proof.
  intros D He. unfold get_subfields.
  rewrite (for_self_even _ _ self subs (df_subfields _ _ _ _ _ D) He).
  now rewrite fold_selected.
Qed.

(** X1: on a data field with a paired list, [get_subfields] called with
    [codes] returns the values of exactly the subfields whose code is among
    [codes], in stored order: values of different codes stay interleaved as
    stored, and a value stored twice is returned twice. *)
Theorem get_subfields_in_stored_order (codes : list string) (self : Field)
    (i1 i2 : string) (more subs : list string) :
  DataField i1 i2 more subs self ->
  Nat.even (List.length subs) = true ->
  get_subfields codes self
  = Some (Return (map snd (filter (fun p => PyStr.in_tuple (fst p) codes)
                                  (pairs subs))),
          cursor_at (List.length subs) self) /\
  (forall p, In p (filter (fun p => PyStr.in_tuple (fst p) codes) (pairs subs))
             <-> In p (pairs subs) /\ In (fst p) codes).
Proof.
  intros D He. split.
  - exact (get_subfields_data codes self i1 i2 more subs D He).
  - intro p. rewrite filter_In. now rewrite in_tuple_In.
Qed.

Lemma get_subfields_in_stored_order_witness :
  get_subfields ["b"; "a"]
    (data_field "245" "0" "1" ["a"; "X"; "c"; "Z"; "b"; "Y"; "a"; "X"])
  = Some (Return ["X"; "Y"; "X"],
          cursor_at 8
            (data_field "245" "0" "1"
                        ["a"; "X"; "c"; "Z"; "b"; "Y"; "a"; "X"])).
Proof.
  apply (get_subfields_in_stored_order ["b"; "a"]
           (data_field "245" "0" "1" ["a"; "X"; "c"; "Z"; "b"; "Y"; "a"; "X"])
           "0" "1" [] ["a"; "X"; "c"; "Z"; "b"; "Y"; "a"; "X"]).
  - constructor; reflexivity.
  - reflexivity.
Defined.

Lemma hd_selected (code : string) (ps : list (string * string)) :
  hd_error (selected [code] ps)
  = option_map snd (find (fun p => String.eqb (fst p) code) ps).
Proof.
  unfold selected, PyStr.in_tuple. induction ps as [|p ps IH]; simpl.
  - reflexivity.
  - rewrite orb_false_r.
    destruct (String.eqb (fst p) code); simpl; [reflexivity | exact IH].
Qed.

(** [__getitem__] on a data field with a paired list. *)
Lemma getitem_data (code : string) (self : Field)
    (i1 i2 : string) (more subs : list string) :
  DataField i1 i2 more subs self ->
  Nat.even (List.length subs) = true ->
  __getitem__ code self
  = Some (Return (option_map snd
                    (find (fun p => String.eqb (fst p) code) (pairs subs))),
          cursor_at (List.length subs) self).
Proof.
  intros D He. unfold __getitem__, bind.
  rewrite (get_subfields_data [code] self i1 i2 more subs D He).
  rewrite <- hd_selected.
  destruct (selected [code] (pairs subs)) as [|v vs]; reflexivity.
Qed.

(** X2: on a data field with a paired list, [field[code]] returns the
    value of the first stored subfield with that code, and [None] exactly
    when no stored subfield has the code; it never raises for a missing
    code. *)
Theorem getitem_first_match (code : string) (self : Field)
    (i1 i2 : string) (more subs : list string) :
  DataField i1 i2 more subs self ->
  Nat.even (List.length subs) = true ->
  __getitem__ code self
  = Some (Return (option_map snd
                    (find (fun p => String.eqb (fst p) code) (pairs subs))),
          cursor_at (List.length subs) self) /\
  (__getitem__ code self
   = Some (Return None, cursor_at (List.length subs) self)
   <-> forall p, In p (pairs subs) -> fst p <> code) /\
  (forall before v after,
     pairs subs = before ++ (code, v) :: after ->
     (forall p, In p before -> fst p <> code) ->
     __getitem__ code self
     = Some (Return (Some v), cursor_at (List.length subs) self)).
Proof.
  intros D He.
  pose proof (getitem_data code self i1 i2 more subs D He) as G.
  split; [exact G|]. split.
  - rewrite G. split.
    + intros H p Hp E.
      destruct (find (fun p => String.eqb (fst p) code) (pairs subs)) eqn:F;
        [discriminate H|].
      apply (find_none _ _ F) in Hp. rewrite E, String.eqb_refl in Hp.
      discriminate.
    + intro H.
      destruct (find (fun p => String.eqb (fst p) code) (pairs subs)) eqn:F;
        [|reflexivity].
      apply find_some in F. destruct F as [Hp E].
      apply String.eqb_eq in E. now apply H in Hp.
  - intros before v after E Hb. rewrite G, E. do 3 f_equal.
    clear E. induction before as [|q before IH]; simpl.
    + now rewrite String.eqb_refl.
    + destruct (String.eqb_spec (fst q) code) as [Q|Q].
      * exfalso. apply (Hb q); [now left | exact Q].
      * apply IH. intros p Hp. apply Hb. now right.
Qed.

Lemma getitem_first_match_witness :
  __getitem__ "a" (data_field "245" "0" "1" ["b"; "Y"; "a"; "X"; "a"; "W"])
  = Some (Return (Some "X"),
          cursor_at 6 (data_field "245" "0" "1"
                                  ["b"; "Y"; "a"; "X"; "a"; "W"])) /\
  __getitem__ "z" field_245_xy = Some (Return None, cursor_at 4 field_245_xy).
Proof.
  split.
  - refine (proj1 (getitem_first_match "a"
             (data_field "245" "0" "1" ["b"; "Y"; "a"; "X"; "a"; "W"])
             "0" "1" [] ["b"; "Y"; "a"; "X"; "a"; "W"] _ _)).
    + constructor; reflexivity.
    + reflexivity.
  - refine (proj1 (getitem_first_match "z" field_245_xy
             "0" "1" [] ["a"; "X"; "b"; "Y"] _ _)).
    + constructor; reflexivity.
    + reflexivity.
Defined.

(** X3: lookups do not answer that nothing was found on a field they
    cannot iterate.  On a control field [get_subfields] and [field[code]] raise the
    [AttributeError] for [subfields]; on a data field whose list has an
    unpaired last entry [field[code]] raises [IndexError], also when a
    subfield with that code comes before the unpaired entry. *)
Theorem lookup_failures (self : Field) :
  (forall d codes code,
     ControlField d self ->
     get_subfields codes self
     = Some (Raise (AttributeError "subfields"), cursor_at 0 self) /\
     __getitem__ code self
     = Some (Raise (AttributeError "subfields"), cursor_at 0 self)) /\
  (forall i1 i2 more subs code,
     DataField i1 i2 more subs self ->
     Nat.even (List.length subs) = false ->
     __getitem__ code self
     = Some (Raise IndexError, cursor_at (List.length subs - 1) self)).
Proof.
  split.
  - intros d codes code C. unfold __getitem__, bind, get_subfields.
    now rewrite !(for_self_no_subfields _ _ self (cf_subfields _ _ C)).
  - intros i1 i2 more subs code D He.
    unfold __getitem__, bind, get_subfields.
    now rewrite (for_self_odd _ _ self subs (df_subfields _ _ _ _ _ D) He).
Qed.

Lemma lookup_failures_witness :
  __getitem__ "a" field_001
  = Some (Raise (AttributeError "subfields"), cursor_at 0 field_001) /\
  __getitem__ "a" field_245_odd
  = Some (Raise IndexError, cursor_at 2 field_245_odd).
Proof.
  split.
  - apply (proj1 (lookup_failures field_001) "fol123" [] "a").
    constructor; reflexivity.
  - apply (proj2 (lookup_failures field_245_odd)
             "0" "1" [] ["a"; "X"; "b"] "a").
    + constructor; reflexivity.
    + reflexivity.
Defined.

(* ================================================================== *)
(** ** Reading after [add_subfield] *)
(* ================================================================== *)

Lemma add_subfield_run (code val : string) (self : Field)
    (i1 i2 : string) (more subs : list string) :
  DataField i1 i2 more subs self ->
  add_subfield code val self
  = Some (Return tt, set_subfields (subs ++ [code; val]) self) /\
  DataField i1 i2 more (subs ++ [code; val])
            (set_subfields (subs ++ [code; val]) self).
Proof.
  intro D. split.
  - unfold add_subfield, bind, getattr, setattr.
    rewrite (df_subfields _ _ _ _ _ D). simpl. now rewrite <- app_assoc.
  - destruct D. constructor; assumption || reflexivity.
Qed.

Lemma even_snoc (subs : list string) (code val : string) :
  Nat.even (List.length (subs ++ [code; val])) = Nat.even (List.length subs).
Proof.
  rewrite length_app. simpl List.length.
  replace (List.length subs + 2) with (List.length subs + 2 * 1) by lia.
  apply Nat.even_add_mul_2.
Qed.

Lemma join_snoc (l : list string) (x : string) :
  PyStr.join (l ++ [x]) = (PyStr.join l ++ x)%string.
Proof.
  induction l as [|y l IH]; simpl.
  - apply PyStrFacts.append_nil_r.
  - rewrite IH. now rewrite PyStrFacts.append_assoc.
Qed.

Lemma value_data (self : Field) (i1 i2 : string) (more subs : list string) :
  DataField i1 i2 more subs self ->
  Nat.even (List.length subs) = true ->
  value self
  = Some (Return (PyStr.join (map snd (pairs subs))),
          cursor_at (List.length subs) self).
Proof.
  intros D He. unfold value. rewrite (df_tag _ _ _ _ _ D).
  rewrite (for_self_even _ _ self subs (df_subfields _ _ _ _ _ D) He).
  now rewrite (PyStrFacts.fold_append snd).
Qed.

(** X4: a lookup that follows [add_subfield(code, val)] on a data field
    with a paired list sees the new subfield last: [get_subfields] returns
    what it returned before, followed by [val] when [code] is among the
    codes asked for; [field[code]] returns the value it returned before if
    there was one, and [val] otherwise, so it is never [None]. *)
Theorem add_subfield_then_lookup (code val : string) (codes : list string)
    (self : Field) (i1 i2 : string) (more subs : list string) :
  DataField i1 i2 more subs self ->
  Nat.even (List.length subs) = true ->
  let self' := cursor_at (List.length subs + 2)
                 (set_subfields (subs ++ [code; val]) self) in
  (add_subfield code val ;;; get_subfields codes) self
  = Some (Return (selected codes (pairs subs)
                  ++ (if PyStr.in_tuple code codes then [val] else [])),
          self') /\
  (add_subfield code val ;;; __getitem__ code) self
  = Some (Return (Some (match find (fun p => String.eqb (fst p) code)
                                   (pairs subs) with
                        | Some p => snd p
                        | None => val
                        end)),
          self').
Proof.
  intros D He self'.
  destruct (add_subfield_run code val self i1 i2 more subs D) as [R D'].
  assert (Nat.even (List.length (subs ++ [code; val])) = true) as He'
    by now rewrite even_snoc.
  assert (List.length (subs ++ [code; val]) = List.length subs + 2) as L
    by (rewrite length_app; reflexivity).
  split.
  - unfold bind. rewrite R.
    rewrite (get_subfields_data codes _ i1 i2 more _ D' He').
    rewrite L, (pairs_snoc subs code val He).
    unfold selected. rewrite filter_app, map_app. simpl filter.
    now destruct (PyStr.in_tuple code codes).
  - unfold bind at 1. rewrite R.
    rewrite (getitem_data code _ i1 i2 more _ D' He').
    rewrite L, (pairs_snoc subs code val He).
    unfold self'. do 3 f_equal.
    induction (pairs subs) as [|p ps IH]; simpl.
    + now rewrite String.eqb_refl.
    + destruct (String.eqb (fst p) code); [reflexivity | exact IH].
Qed.

Lemma add_subfield_then_lookup_witness :
  (add_subfield "u" "http://x" ;;; get_subfields ["a"; "u"]) field_245_xy
  = Some (Return ["X"; "http://x"],
          cursor_at 6
            (data_field "245" "0" "1" ["a"; "X"; "b"; "Y"; "u"; "http://x"])) /\
  (add_subfield "a" "W" ;;; __getitem__ "a") field_245_xy
  = Some (Return (Some "X"),
          cursor_at 6 (data_field "245" "0" "1" ["a"; "X"; "b"; "Y"; "a"; "W"])).
Proof.
  assert (DataField "0" "1" [] ["a"; "X"; "b"; "Y"] field_245_xy) as D
    by (constructor; reflexivity).
  split.
  - exact (proj1 (add_subfield_then_lookup "u" "http://x" ["a"; "u"]
                    field_245_xy "0" "1" [] ["a"; "X"; "b"; "Y"] D eq_refl)).
  - exact (proj2 (add_subfield_then_lookup "a" "W" []
                    field_245_xy "0" "1" [] ["a"; "X"; "b"; "Y"] D eq_refl)).
Defined.

(** X5: [value()] after [add_subfield(code, val)] on a data field with a
    paired list is the old value followed by [val]: the code adds nothing
    to it and nothing is put between the old text and the new value. *)
Theorem add_subfield_then_value (code val : string) (self : Field)
    (i1 i2 : string) (more subs : list string) :
  DataField i1 i2 more subs self ->
  Nat.even (List.length subs) = true ->
  exists old,
    value self = Some (Return old, cursor_at (List.length subs) self) /\
    (add_subfield code val ;;; value) self
    = Some (Return (old ++ val)%string,
            cursor_at (List.length subs + 2)
              (set_subfields (subs ++ [code; val]) self)).
Proof.
  intros D He.
  destruct (add_subfield_run code val self i1 i2 more subs D) as [R D'].
  exists (PyStr.join (map snd (pairs subs))). split.
  - exact (value_data self i1 i2 more subs D He).
  - unfold bind. rewrite R.
    rewrite (value_data _ i1 i2 more (subs ++ [code; val]) D')
      by now rewrite even_snoc.
    rewrite (pairs_snoc subs code val He), map_app. simpl map.
    rewrite join_snoc. rewrite length_app. reflexivity.
Qed.

Lemma add_subfield_then_value_witness :
  exists old,
    value field_245_xy = Some (Return old, cursor_at 4 field_245_xy) /\
    (add_subfield "u" "http://x" ;;; value) field_245_xy
    = Some (Return (old ++ "http://x")%string,
            cursor_at 6
              (set_subfields (["a"; "X"; "b"; "Y"] ++ ["u"; "http://x"])
                             field_245_xy)).
Proof.
  apply (add_subfield_then_value "u" "http://x" field_245_xy
           "0" "1" [] ["a"; "X"; "b"; "Y"]).
  - constructor; reflexivity.
  - reflexivity.
Defined.

(** X6: [add_subfield] does not repair a list with an unpaired last entry:
    the list stays odd, the unpaired entry is read as the code of a pair
    whose value is the new code, the new value is left unpaired, and
    [value()] still raises [IndexError]. *)
Theorem add_subfield_keeps_odd (code val : string) (self : Field)
    (i1 i2 : string) (more subs : list string) :
  DataField i1 i2 more subs self ->
  Nat.even (List.length subs) = false ->
  Nat.even (List.length (subs ++ [code; val])) = false /\
  (exists last,
     subs = flat (pairs subs) ++ [last] /\
     pairs (subs ++ [code; val]) = pairs subs ++ [(last, code)]) /\
  (add_subfield code val ;;; value) self
  = Some (Raise IndexError,
          cursor_at (List.length subs + 1)
            (set_subfields (subs ++ [code; val]) self)).
Proof.
  intros D He.
  destruct (add_subfield_run code val self i1 i2 more subs D) as [R D'].
  assert (Nat.even (List.length (subs ++ [code; val])) = false) as He'
    by now rewrite even_snoc.
  split; [exact He'|]. split.
  - destruct (odd_flat subs He) as [last E]. exists last.
    split; [exact E|].
    rewrite E at 1. rewrite <- app_assoc.
    change ([last] ++ [code; val]) with (flat [(last, code)] ++ [val]).
    rewrite app_assoc, <- flat_app. apply pairs_flat_tail. simpl. lia.
  - unfold bind. rewrite R. unfold value.
    rewrite (df_tag _ _ _ _ _ D').
    rewrite (for_self_odd _ _ _ _ (df_subfields _ _ _ _ _ D') He').
    rewrite length_app. simpl List.length.
    replace (List.length subs + 2 - 1) with (List.length subs + 1) by lia.
    reflexivity.
Qed.

Lemma add_subfield_keeps_odd_witness :
  (add_subfield "c" "Z" ;;; value) field_245_odd
  = Some (Raise IndexError,
          cursor_at 4 (set_subfields (["a"; "X"; "b"] ++ ["c"; "Z"])
                                     field_245_odd)).
Proof.
  refine (proj2 (proj2 (add_subfield_keeps_odd "c" "Z" field_245_odd
                          "0" "1" [] ["a"; "X"; "b"] _ _))).
  - constructor; reflexivity.
  - reflexivity.
Defined.

(* ================================================================== *)
(** ** The cursor kept on the instance *)
(* ================================================================== *)

(** A loop over [self] changes nothing but the cursor, whatever [self]
    holds. *)
Lemma for_self_cursor {A} (body : A -> string * string -> A) (acc : A)
    (self : Field) :
  exists r n, for_self body acc self = Some (r, cursor_at n self).
Proof.
  destruct (subfields self) as [subs|] eqn:Hs.
  - destruct (pairs_split subs) as [tail [E L]].
    rewrite E in Hs.
    assert (List.length tail <= 1) as Ht.
    { assert (List.length subs mod 2 < 2)
        by (apply Nat.mod_upper_bound; lia).
      lia. }
    rewrite (for_self_pairs body _ _ acc self Hs Ht). eauto.
  - rewrite (for_self_no_subfields body acc self Hs). now exists (Raise (AttributeError "subfields")), 0.
Qed.

Lemma for_self_ends {A} (body : A -> string * string -> A) (acc : A)
    (self self' : Field) (r : outcome A) :
  for_self body acc self = Some (r, self') ->
  exists n, self' = cursor_at n self.
Proof.
  intro H. destruct (for_self_cursor body acc self) as [r0 [n E]].
  rewrite E in H. injection H as _ <-. now exists n.
Qed.

Lemma value_cursor_only : cursor_only value.
Proof.
  intros self r self' H. unfold value in H.
  destruct (is_control_field self) eqn:C.
  - unfold getattr in H.
    destruct (data self) eqn:Hd; injection H as <- <-; (split; [now left|]);
      unfold value, getattr; now rewrite C, Hd.
  - destruct (for_self_ends _ _ _ _ _ H) as [n ->].
    split; [right; now exists n|].
    unfold value.
    change (is_control_field (cursor_at n self)) with (is_control_field self).
    rewrite C. exact H.
Qed.

Lemma get_subfields_cursor_only (codes : list string) :
  cursor_only (get_subfields codes).
Proof.
  intros self r self' H. unfold get_subfields in H.
  destruct (for_self_ends _ _ _ _ _ H) as [n ->].
  split; [right; now exists n | exact H].
Qed.

Lemma bind_ends {A B} (m : M A) (g : A -> B) (self self' : Field)
    (r : outcome B) :
  (x <- m ;; ret (g x)) self = Some (r, self') ->
  exists r0, m self = Some (r0, self').
Proof.
  unfold bind, ret. destruct (m self) as [[[a|e] s]|]; intro H;
    [| |discriminate H]; injection H as _ <-; eauto.
Qed.

Lemma format_field_cursor_only : cursor_only format_field.
Proof.
  intros self r self' H. unfold format_field in H.
  destruct (is_control_field self) eqn:C.
  - unfold getattr in H.
    destruct (data self) eqn:Hd; injection H as <- <-; (split; [now left|]);
      unfold format_field, getattr; now rewrite C, Hd.
  - pose proof H as H0. apply bind_ends in H0. destruct H0 as [r0 H0].
    destruct (for_self_ends _ _ _ _ _ H0) as [n ->].
    split; [right; now exists n|].
    unfold format_field.
    change (is_control_field (cursor_at n self)) with (is_control_field self).
    rewrite C. exact H.
Qed.

Lemma str_cursor_only : cursor_only __str__.
Proof.
  intros self r self' H. unfold __str__ in H.
  destruct (is_control_field self) eqn:C.
  - unfold bind, getattr, ret in H.
    destruct (data self) eqn:Hd; injection H as <- <-; (split; [now left|]);
      unfold __str__, bind, getattr, ret; now rewrite C, Hd.
  - unfold bind, getattr in H.
    destruct (indicators self) as [inds|] eqn:Hi.
    + destruct (for_self_ends _ _ _ _ _ H) as [n ->].
      split; [right; now exists n|].
      unfold __str__, bind, getattr.
      change (is_control_field (cursor_at n self))
        with (is_control_field self).
      change (indicators (cursor_at n self)) with (indicators self).
      rewrite C, Hi. exact H.
    + injection H as <- <-. split; [now left|].
      unfold __str__, bind, getattr. now rewrite C, Hi.
Qed.

Lemma as_marc21_cursor_only (SUBFIELD_INDICATOR END_OF_FIELD : string) :
  cursor_only (as_marc21 SUBFIELD_INDICATOR END_OF_FIELD).
Proof.
  intros self r self' H. unfold as_marc21 in H.
  destruct (is_control_field self) eqn:C.
  - unfold bind, getattr, ret in H.
    destruct (data self) eqn:Hd; injection H as <- <-; (split; [now left|]);
      unfold as_marc21, bind, getattr, ret; now rewrite C, Hd.
  - unfold bind, getattr in H.
    destruct (indicator1 self) as [a|] eqn:H1.
    + destruct (indicator2 self) as [b|] eqn:H2.
      * destruct (for_self_cursor
                    (fun marc subfield =>
                       marc ++ (SUBFIELD_INDICATOR ++ fst subfield)
                            ++ snd subfield)%string
                    (a ++ b)%string self) as [r0 [n E]].
        rewrite E in H.
        assert (self' = cursor_at n self) as ->
          by (destruct r0; injection H as _ <-; reflexivity).
        split; [right; now exists n|].
        unfold as_marc21.
        change (is_control_field (cursor_at n self))
          with (is_control_field self).
        rewrite C. unfold bind, getattr.
        change (indicator1 (cursor_at n self)) with (indicator1 self).
        rewrite H1.
        change (indicator2 (cursor_at n self)) with (indicator2 self).
        rewrite H2.
        change (for_self
                  (fun marc subfield =>
                     marc ++ (SUBFIELD_INDICATOR ++ fst subfield)
                          ++ snd subfield)%string
                  (a ++ b)%string (cursor_at n self))
          with (for_self
                  (fun marc subfield =>
                     marc ++ (SUBFIELD_INDICATOR ++ fst subfield)
                          ++ snd subfield)%string
                  (a ++ b)%string self).
        rewrite E. exact H.
      * injection H as <- <-. split; [now left|].
        unfold as_marc21. rewrite C. unfold bind, getattr.
        now rewrite H1, H2.
    + injection H as <- <-. split; [now left|].
      unfold as_marc21. rewrite C. unfold bind, getattr. now rewrite H1.
Qed.

Lemma cursor_only_content {A} (m : M A) (self self' : Field)
    (r : outcome A) :
  cursor_only m -> m self = Some (r, self') -> same_content self self'.
Proof.
  intros H E. destruct (proj1 (H self r self' E)) as [-> | [n ->]];
    repeat split.
Qed.

(** X7: the serializers and [get_subfields] can be called again: on any
    instance, in any state of the cursor, and whether the first call
    returned or raised, a second call made from the state the first one
    left gives the same outcome and leaves that same state, because every
    loop starts by resetting the cursor. *)
Theorem reading_twice (SUBFIELD_INDICATOR END_OF_FIELD : string)
    (codes : list string) (self self' : Field) :
  (forall r, value self = Some (r, self') ->
             value self' = Some (r, self')) /\
  (forall r, get_subfields codes self = Some (r, self') ->
             get_subfields codes self' = Some (r, self')) /\
  (forall r, format_field self = Some (r, self') ->
             format_field self' = Some (r, self')) /\
  (forall r, __str__ self = Some (r, self') ->
             __str__ self' = Some (r, self')) /\
  (forall r,
     as_marc21 SUBFIELD_INDICATOR END_OF_FIELD self = Some (r, self') ->
     as_marc21 SUBFIELD_INDICATOR END_OF_FIELD self' = Some (r, self')).
Proof.
  split; [|split; [|split; [|split]]]; intros r H.
  - exact (proj2 (value_cursor_only self r self' H)).
  - exact (proj2 (get_subfields_cursor_only codes self r self' H)).
  - exact (proj2 (format_field_cursor_only self r self' H)).
  - exact (proj2 (str_cursor_only self r self' H)).
  - exact (proj2 (as_marc21_cursor_only SUBFIELD_INDICATOR END_OF_FIELD
                    self r self' H)).
Qed.

(** A second [value()] after one that raised on an odd list, and a second
    [format_field()] after one that returned. *)
Lemma reading_twice_witness :
  value (cursor_at 2 field_245_odd)
  = Some (Raise IndexError, cursor_at 2 field_245_odd) /\
  format_field (cursor_at 4 field_650_cats)
  = Some (Return "Cats -- Fiction", cursor_at 4 field_650_cats).
Proof.
  split.
  - apply (proj1 (reading_twice US RS [] field_245_odd
                    (cursor_at 2 field_245_odd)) (Raise IndexError)).
    reflexivity.
  - apply (proj1 (proj2 (proj2 (reading_twice US RS [] field_650_cats
                    (cursor_at 4 field_650_cats))))
             (Return "Cats -- Fiction")).
    reflexivity.
Defined.

(** X8: reading never changes what a field holds: whatever [value],
    [get_subfields], [format_field], the text rendering or [as_marc21]
    return or raise, the tag, the data, the indicators and the subfield
    list are afterwards what they were; only the cursor may have moved. *)
Theorem reading_keeps_content (SUBFIELD_INDICATOR END_OF_FIELD : string)
    (codes : list string) (self self' : Field) :
  (forall r, value self = Some (r, self') -> same_content self self') /\
  (forall r, get_subfields codes self = Some (r, self') ->
             same_content self self') /\
  (forall r, format_field self = Some (r, self') ->
             same_content self self') /\
  (forall r, __str__ self = Some (r, self') -> same_content self self') /\
  (forall r, as_marc21 SUBFIELD_INDICATOR END_OF_FIELD self = Some (r, self') ->
             same_content self self').
Proof.
  split; [|split; [|split; [|split]]]; intros r H.
  - exact (cursor_only_content _ _ _ _ value_cursor_only H).
  - exact (cursor_only_content _ _ _ _ (get_subfields_cursor_only codes) H).
  - exact (cursor_only_content _ _ _ _ format_field_cursor_only H).
  - exact (cursor_only_content _ _ _ _ str_cursor_only H).
  - exact (cursor_only_content _ _ _ _
             (as_marc21_cursor_only SUBFIELD_INDICATOR END_OF_FIELD) H).
Qed.

Lemma reading_keeps_content_witness :
  same_content field_245_odd (cursor_at 2 field_245_odd) /\
  same_content field_245_xy (cursor_at 4 field_245_xy).
Proof.
  split.
  - apply (proj1 (reading_keeps_content US RS [] field_245_odd
                    (cursor_at 2 field_245_odd)) (Raise IndexError)).
    reflexivity.
  - apply (proj1 (proj2 (proj2 (reading_keeps_content US RS [] field_245_xy
                    (cursor_at 4 field_245_xy)))) (Return "X Y")).
    reflexivity.
Defined.

(** X9: the cursor is shared by every loop over the instance.  In the
    middle of an iteration over a data field with a paired list [next]
    yields the pair under the cursor; once [value()] or [get_subfields()]
    has been called in between, the same [next] raises [StopIteration]: the
    pairs that were left are not yielded.  An exhausted cursor stays
    exhausted. *)
Theorem reading_ends_iteration (codes : list string) (self : Field)
    (i1 i2 : string) (more subs : list string) (k : nat)
    (p : string * string) :
  DataField i1 i2 more subs self ->
  Nat.even (List.length subs) = true ->
  nth_error (pairs subs) k = Some p ->
  let finished := cursor_at (List.length subs) self in
  next (cursor_at (2 * k) self)
  = Some (Return p, cursor_at (2 * k + 2) self) /\
  (value ;;; next) (cursor_at (2 * k) self)
  = Some (Raise StopIteration, finished) /\
  (get_subfields codes ;;; next) (cursor_at (2 * k) self)
  = Some (Raise StopIteration, finished) /\
  next finished = Some (Raise StopIteration, finished).
Proof.
  intros D He Hk finished.
  pose proof (cursor_at_data (2 * k) _ _ _ _ _ D) as Dk.
  assert (next finished = Some (Raise StopIteration, finished)) as Stop.
  { apply (next_stop finished subs).
    - exact (df_subfields _ _ _ _ _ D).
    - reflexivity. }
  split; [|split; [|split]].
  - exact (next_at_pair self subs k p (df_subfields _ _ _ _ _ D) Hk).
  - unfold bind. rewrite (value_data _ i1 i2 more subs Dk He). exact Stop.
  - unfold bind.
    rewrite (get_subfields_data codes _ i1 i2 more subs Dk He). exact Stop.
  - exact Stop.
Qed.

Lemma reading_ends_iteration_witness :
  next (cursor_at 0 field_245_xy)
  = Some (Return ("a", "X"), cursor_at 2 field_245_xy) /\
  (value ;;; next) (cursor_at 0 field_245_xy)
  = Some (Raise StopIteration, cursor_at 4 field_245_xy).
Proof.
  assert (DataField "0" "1" [] ["a"; "X"; "b"; "Y"] field_245_xy) as D
    by (constructor; reflexivity).
  split.
  - exact (proj1 (reading_ends_iteration [] field_245_xy "0" "1" []
                    ["a"; "X"; "b"; "Y"] 0 ("a", "X") D eq_refl eq_refl)).
  - exact (proj1 (proj2 (reading_ends_iteration [] field_245_xy "0" "1" []
                    ["a"; "X"; "b"; "Y"] 0 ("a", "X") D eq_refl eq_refl))).
Defined.

(** X10: [next] needs [__iter__] first.  On a field as the constructor
    returns it the cursor attribute does not exist yet and [next] raises
    the [AttributeError] for [_Field__pos], for either variant; after
    [__iter__] it raises the [AttributeError] for [subfields] on a control
    field and [StopIteration] on a data field without subfields. *)
Theorem next_needs_iter (self : Field) :
  (forall t i s d,
     __init__ t i s d = Return self ->
     next self = Some (Raise (AttributeError "_Field__pos"), self)) /\
  (forall d,
     ControlField d self ->
     (__iter__ ;;; next) self
     = Some (Raise (AttributeError "subfields"), cursor_at 0 self)) /\
  (forall i1 i2 more,
     DataField i1 i2 more [] self ->
     (__iter__ ;;; next) self = Some (Raise StopIteration, cursor_at 0 self)).
Proof.
  split; [|split].
  - intros t i s d H.
    assert (_Field__pos self = None) as P.
    { unfold __init__ in H. simpl tag in H.
      destruct (PyStr.str_lt (PyStr.fmt_03s t) "010").
      - injection H as <-. reflexivity.
      - destruct (or_empty i) as [|a [|b more]]; simpl in H;
          try discriminate H.
        injection H as <-. reflexivity. }
    unfold next, bind, getattr. now rewrite P.
  - intros d C. unfold bind at 1. unfold __iter__, setattr.
    unfold next, bind, getattr.
    change (_Field__pos (set_pos 0 self)) with (Some 0). cbv beta iota.
    change (subfields (set_pos 0 self)) with (subfields self).
    now rewrite (cf_subfields _ _ C).
  - intros i1 i2 more D. unfold bind at 1. unfold __iter__, setattr.
    apply (next_stop (set_pos 0 self) []).
    + exact (df_subfields _ _ _ _ _ D).
    + reflexivity.
Qed.

Lemma next_needs_iter_witness :
  next field_245_xy
  = Some (Raise (AttributeError "_Field__pos"), field_245_xy) /\
  (__iter__ ;;; next) field_001
  = Some (Raise (AttributeError "subfields"), cursor_at 0 field_001).
Proof.
  split.
  - apply (proj1 (next_needs_iter field_245_xy)
             "245" (Some ["0"; "1"]) (Some ["a"; "X"; "b"; "Y"]) "").
    reflexivity.
  - apply (proj1 (proj2 (next_needs_iter field_001)) "fol123").
    constructor; reflexivity.
Defined.

(* ================================================================== *)
(** ** What the constructor keeps *)
(* ================================================================== *)

(** X11: the constructor returns an instance exactly when the normalized
    tag is below ["010"] or at least two indicators are given.  A control
    field keeps the data and nothing else; a data field keeps the whole
    indicator list (also entries after the second), its first two entries
    as [indicator1] and [indicator2], and the subfield list (the empty list
    when none is given), and drops the data argument. *)
Theorem init_outcomes (t : string) (i s : option (list string)) (d : string) :
  (PyStr.str_lt (PyStr.fmt_03s t) "010" = true ->
   __init__ t i s d
   = Return (mkField (PyStr.fmt_03s t) (Some d) None None None None None)) /\
  (forall i1 i2 more,
     PyStr.str_lt (PyStr.fmt_03s t) "010" = false ->
     i = Some (i1 :: i2 :: more) ->
     __init__ t i s d
     = Return (mkField (PyStr.fmt_03s t) None (Some (i1 :: i2 :: more))
                       (Some i1) (Some i2) (Some (or_empty s)) None)) /\
  ((exists self, __init__ t i s d = Return self) <->
   (PyStr.str_lt (PyStr.fmt_03s t) "010" = true \/
    2 <= List.length (or_empty i))).
Proof.
  split; [|split].
  - intro H. unfold __init__. simpl tag. now rewrite H.
  - intros i1 i2 more H ->. unfold __init__. simpl tag. now rewrite H.
  - unfold __init__. simpl tag.
    destruct (PyStr.str_lt (PyStr.fmt_03s t) "010").
    + split; [now left | eauto].
    + destruct (or_empty i) as [|a [|b more]]; simpl.
      * split; [intros [f H]; discriminate H | intros [H|H]; [discriminate | lia]].
      * split; [intros [f H]; discriminate H | intros [H|H]; [discriminate | lia]].
      * split; [intros _; right; lia | eauto].
Qed.

Lemma init_outcomes_witness :
  __init__ "245" (Some ["0"; "1"; "2"]) None "dropped"
  = Return (mkField "245" None (Some ["0"; "1"; "2"]) (Some "0") (Some "1")
                    (Some []) None).
Proof.
  apply (proj1 (proj2 (init_outcomes "245" (Some ["0"; "1"; "2"]) None
                         "dropped")) "0" "1" ["2"]); reflexivity.
Defined.

(** X12: the stored tag is never shorter than three characters and never
    cut: its length is the larger of three and the length of the argument,
    the argument is its end, everything before it is spaces, and an
    argument of three or more characters is stored as it is. *)
Theorem stored_tag_width (t : string) (i s : option (list string))
    (d : string) (self : Field) :
  __init__ t i s d = Return self ->
  String.length (tag self) = Nat.max 3 (String.length t) /\
  tag self = (PyStr.spaces (3 - String.length t) ++ t)%string /\
  (3 <= String.length t -> tag self = t).
Proof.
  intro H. destruct (init_returns t i s d self H) as [T _].
  rewrite T. unfold PyStr.fmt_03s. split; [|split].
  - rewrite PyStrFacts.length_append, PyStrFacts.length_spaces. lia.
  - reflexivity.
  - intro L. now replace (3 - String.length t) with 0 by lia.
Qed.

Lemma stored_tag_width_witness :
  tag (mkField "2450" None (Some ["0"; "1"]) (Some "0") (Some "1")
               (Some []) None) = "2450".
Proof.
  refine (proj2 (proj2 (stored_tag_width "2450" (Some ["0"; "1"]) None ""
                          _ _)) _).
  - reflexivity.
  - simpl. lia.
Defined.

(** X13: a subject field is never a control field: a tag that starts with
    ['6'] is not below ["010"], so the subject rule of [format_field] only
    ever applies to fields that have subfields to format. *)
Theorem subject_field_is_data_field (self : Field) :
  is_subject_field self = true -> is_control_field self = false.
Proof.
  unfold is_subject_field, is_control_field, PyStr.startswith.
  destruct (tag self) as [|c rest]; [discriminate|].
  destruct (Ascii.eqb c "6") eqn:E; [|discriminate].
  apply Ascii.eqb_eq in E. subst c. reflexivity.
Qed.

Lemma subject_field_is_data_field_witness :
  is_control_field field_650_cats = false.
Proof.
  apply (subject_field_is_data_field field_650_cats). reflexivity.
Defined.

(* ================================================================== *)
(** ** More on lookups and renderings *)
(* ================================================================== *)

Lemma iterate_ext {A} (body body' : A -> string * string -> A) :
  (forall a p, body a p = body' a p) ->
  forall fuel acc self,
    iterate fuel body acc self = iterate fuel body' acc self.
Proof.
  intro H. induction fuel as [|fuel IH]; intros acc self; simpl;
    [reflexivity|].
  destruct (next self) as [[[sf|e] s]|]; [|reflexivity..].
  rewrite H. apply IH.
Qed.

(** X14: [get_subfields] takes its codes as a set: two calls whose code
    tuples have the same members, in whatever order and however often
    repeated, return the same result and leave the same state, on every
    instance. *)
Theorem get_subfields_codes_as_set (codes codes' : list string)
    (self : Field) :
  (forall x, In x codes <-> In x codes') ->
  get_subfields codes self = get_subfields codes' self.
Proof.
  intro H. unfold get_subfields, for_self, bind, __iter__, setattr.
  apply iterate_ext. intros values p.
  assert (PyStr.in_tuple (fst p) codes = PyStr.in_tuple (fst p) codes') as ->;
    [|reflexivity].
  destruct (PyStr.in_tuple (fst p) codes') eqn:E.
  - apply in_tuple_In. apply H. now apply in_tuple_In.
  - destruct (PyStr.in_tuple (fst p) codes) eqn:E'; [|reflexivity].
    apply in_tuple_In in E'. apply H in E'. apply in_tuple_In in E'.
    congruence.
Qed.

Lemma get_subfields_codes_as_set_witness :
  get_subfields ["a"; "b"; "a"] field_245_xy
  = get_subfields ["b"; "a"] field_245_xy.
Proof.
  apply (get_subfields_codes_as_set ["a"; "b"; "a"] ["b"; "a"] field_245_xy).
  intro x. simpl. tauto.
Defined.

(** X15: on a data field with a paired list, [value()] is the join of
    what [get_subfields] returns when it is asked for every code the field
    stores. *)
Theorem value_joins_all_subfields (codes : list string) (self : Field)
    (i1 i2 : string) (more subs : list string) :
  DataField i1 i2 more subs self ->
  Nat.even (List.length subs) = true ->
  (forall p, In p (pairs subs) -> In (fst p) codes) ->
  exists values,
    get_subfields codes self
    = Some (Return values, cursor_at (List.length subs) self) /\
    value self
    = Some (Return (PyStr.join values), cursor_at (List.length subs) self).
Proof.
  intros D He Hall. exists (selected codes (pairs subs)). split.
  - exact (get_subfields_data codes self i1 i2 more subs D He).
  - rewrite (value_data self i1 i2 more subs D He). do 4 f_equal.
    unfold selected. f_equal. symmetry.
    induction (pairs subs) as [|p ps IH]; [reflexivity|]. simpl.
    assert (PyStr.in_tuple (fst p) codes = true) as ->
      by (apply in_tuple_In, Hall; now left).
    f_equal. apply IH. intros q Hq. apply Hall. now right.
Qed.

Lemma value_joins_all_subfields_witness :
  exists values,
    get_subfields ["a"; "b"] field_245_xy
    = Some (Return values, cursor_at 4 field_245_xy) /\
    value field_245_xy
    = Some (Return (PyStr.join values), cursor_at 4 field_245_xy).
Proof.
  apply (value_joins_all_subfields ["a"; "b"] field_245_xy
           "0" "1" [] ["a"; "X"; "b"; "Y"]).
  - constructor; reflexivity.
  - reflexivity.
  - intros p [<- | [<- | []]]; simpl; tauto.
Defined.

Lemma all_space_nonblank_end (s : string) :
  s <> ""%string -> PyStr.ends_blank s = false -> PyStr.all_space s = false.
Proof.
  induction s as [|c s IH]; [congruence|]. intros _ H.
  destruct s as [|c' s].
  - simpl in *. now rewrite H.
  - change (PyStr.all_space (String c (String c' s)))
      with (PyStr.isspace c && PyStr.all_space (String c' s)).
    rewrite IH; [apply andb_false_r | discriminate | exact H].
Qed.

Lemma rstrip_fixed (s : string) :
  PyStr.ends_blank s = false -> PyStr.rstrip s = s.
Proof.
  induction s as [|c s IH]; [reflexivity|]. intro H.
  rewrite PyStrFacts.rstrip_cons. destruct s as [|c' s].
  - simpl in *. now rewrite H.
  - rewrite all_space_nonblank_end; [|discriminate | exact H].
    now rewrite IH.
Qed.

Lemma spaced_values (ps : list (string * string)) :
  PyStr.join (map (pretty_piece false) ps)
  = match ps with
    | [] => ""%string
    | _ => String " " (join_with " " (map snd ps))
    end.
Proof.
  induction ps as [|p ps IH]; [reflexivity|].
  simpl map. simpl PyStr.join. fold (PyStr.join (map (pretty_piece false) ps)).
  rewrite IH. destruct ps as [|q ps]; simpl.
  - now rewrite PyStrFacts.append_nil_r.
  - reflexivity.
Qed.

(** X16: on a data field that is not a subject field, with a paired list,
    [format_field()] is the values joined by single spaces, provided that
    this text neither starts nor ends with a whitespace character (so that
    the final strip has nothing to remove). *)
Theorem format_field_joins_with_spaces (self : Field) (i1 i2 : string)
    (more subs : list string) :
  DataField i1 i2 more subs self ->
  Nat.even (List.length subs) = true ->
  is_subject_field self = false ->
  let text := join_with " " (map snd (pairs subs)) in
  PyStr.starts_blank text = false ->
  PyStr.ends_blank text = false ->
  format_field self = Some (Return text, cursor_at (List.length subs) self).
Proof.
  intros D He Hs text Hb He'.
  rewrite (format_field_data self i1 i2 more subs D He), Hs.
  rewrite spaced_values. do 3 f_equal. fold text.
  assert (PyStr.strip text = text) as F.
  { unfold PyStr.strip.
    assert (PyStr.lstrip text = text) as ->.
    { destruct text as [|c rest]; [reflexivity|].
      simpl in Hb. simpl. now rewrite Hb. }
    now apply rstrip_fixed. }
  destruct (pairs subs) as [|p ps] eqn:P.
  - exact F.
  - exact F.
Qed.

Lemma format_field_joins_with_spaces_witness :
  format_field (data_field "245" "1" "0" ["a"; "The title :"; "b"; "a sub"])
  = Some (Return "The title : a sub",
          cursor_at 4
            (data_field "245" "1" "0" ["a"; "The title :"; "b"; "a sub"])).
Proof.
  apply (format_field_joins_with_spaces
           (data_field "245" "1" "0" ["a"; "The title :"; "b"; "a sub"])
           "1" "0" [] ["a"; "The title :"; "b"; "a sub"]).
  - constructor; reflexivity.
  - reflexivity.
  - reflexivity.
  - reflexivity.
  - reflexivity.
Defined.

Lemma append_cancel_l (a x y : string) :
  (a ++ x)%string = (a ++ y)%string -> x = y.
Proof.
  induction a as [|c a IH]; simpl; intro H; [exact H|].
  injection H as H. now apply IH.
Qed.

(** X17: the text rendering of a control field does not tell a space in
    the data from a backslash: two control fields with the same tag render
    alike exactly when their data agree once every space is read as a
    backslash.  In particular data that already hold a backslash where the
    other holds a space give the same text. *)
Theorem str_control_field_lossy (self other : Field) (d d' : string) :
  ControlField d self ->
  ControlField d' other ->
  tag other = tag self ->
  ((exists text,
      __str__ self = Some (Return text, self) /\
      __str__ other = Some (Return text, other))
   <-> PyStr.replace " " "\" d = PyStr.replace " " "\" d') /\
  PyStr.replace " " "\" (PyStr.replace " " "\" d) = PyStr.replace " " "\" d.
Proof.
  intros C C' T.
  assert (forall f x, ControlField x f ->
            __str__ f
            = Some (Return ("=" ++ tag f ++ "  "
                            ++ PyStr.replace " " "\" x)%string, f)) as R.
  { intros f x Cf. unfold __str__, bind, getattr, ret.
    now rewrite (cf_tag _ _ Cf), (cf_data _ _ Cf). }
  split.
  - rewrite (R self d C), (R other d' C'), T. split.
    + intros [text [E1 E2]]. injection E1 as E1. injection E2 as E2.
      rewrite <- E2 in E1. injection E1 as E1.
      apply append_cancel_l in E1. now injection E1.
    + intros ->. eauto.
  - clear. induction d as [|c d IH]; simpl; [reflexivity|].
    rewrite IH. f_equal.
    destruct (Ascii.eqb c " ") eqn:E; [reflexivity | now rewrite E].
Qed.

Lemma str_control_field_lossy_witness :
  exists text,
    __str__ field_008 = Some (Return text, field_008) /\
    __str__ (mkField "008" (Some "a\b") None None None None None)
    = Some (Return text,
            mkField "008" (Some "a\b") None None None None None).
Proof.
  refine (proj2 (proj1 (str_control_field_lossy field_008
            (mkField "008" (Some "a\b") None None None None None)
            "a b" "a\b" _ _ _)) _).
  - constructor; reflexivity.
  - constructor; reflexivity.
  - reflexivity.
  - reflexivity.
Defined.

(* ================================================================== *)
(** ** Every call ends *)
(* ================================================================== *)

Lemma bind_for_self_ends {A B} (body : A -> string * string -> A) (acc : A)
    (g : A -> B) (self : Field) :
  exists r self', (x <- for_self body acc ;; ret (g x)) self = Some (r, self').
Proof.
  unfold bind at 1. destruct (for_self_cursor body acc self) as [r [n E]].
  rewrite E. destruct r; unfold ret; eauto.
Qed.

(** X18: every method returns or raises on every instance, whatever its
    attributes hold: the loop of [next] calls behind [value],
    [get_subfields], [field[code]], [format_field], the text rendering and
    [as_marc21] ends within one call per stored entry and one more, because
    each call that yields moves the cursor two entries on. *)
Theorem methods_terminate (SUBFIELD_INDICATOR END_OF_FIELD : string)
    (codes : list string) (code val : string) (self : Field) :
  (exists r self', value self = Some (r, self')) /\
  (exists r self', get_subfields codes self = Some (r, self')) /\
  (exists r self', __getitem__ code self = Some (r, self')) /\
  (exists r self', format_field self = Some (r, self')) /\
  (exists r self', __str__ self = Some (r, self')) /\
  (exists r self',
     as_marc21 SUBFIELD_INDICATOR END_OF_FIELD self = Some (r, self')) /\
  (exists r self', add_subfield code val self = Some (r, self')) /\
  (forall (A : Type) (body : A -> string * string -> A) (acc : A),
     iterate (loop_bound self) body acc (set_pos 0 self) <> None).
Proof.
  split; [|split; [|split; [|split; [|split; [|split; [|split]]]]]].
  - unfold value. destruct (is_control_field self).
    + unfold getattr. destruct (data self); eauto.
    + destruct (for_self_cursor
                  (fun string subfield => string ++ snd subfield)%string
                  ""%string self) as [r [n E]]. eauto.
  - unfold get_subfields.
    destruct (for_self_cursor
                (fun values subfield =>
                   if PyStr.in_tuple (fst subfield) codes
                   then values ++ [snd subfield] else values)
                [] self) as [r [n E]]. eauto.
  - unfold __getitem__, bind, get_subfields.
    destruct (for_self_cursor
                (fun values subfield =>
                   if PyStr.in_tuple (fst subfield) [code]
                   then values ++ [snd subfield] else values)
                [] self) as [r [n E]].
    rewrite E. destruct r as [[|v vs]|e]; simpl; unfold ret; eauto.
  - unfold format_field. destruct (is_control_field self).
    + unfold getattr. destruct (data self); eauto.
    + apply bind_for_self_ends.
  - unfold __str__. destruct (is_control_field self).
    + unfold bind, getattr, ret. destruct (data self); eauto.
    + unfold bind, getattr. destruct (indicators self) as [inds|]; [|eauto].
      match goal with
      | |- exists r self', for_self ?b ?a self = _ =>
          destruct (for_self_cursor b a self) as [r [n E]]
      end.
      eauto.
  - unfold as_marc21. destruct (is_control_field self).
    + unfold bind, getattr, ret. destruct (data self); eauto.
    + unfold bind at 1 2, getattr.
      destruct (indicator1 self) as [a|]; [|eauto].
      destruct (indicator2 self) as [b|]; [|eauto].
      apply bind_for_self_ends.
  - unfold add_subfield, bind, getattr, setattr.
    destruct (subfields self); simpl; eauto.
  - intros A body acc H.
    destruct (for_self_cursor body acc self) as [r [n E]].
    unfold for_self, bind, __iter__, setattr in E.
    change (loop_bound (set_pos 0 self)) with (loop_bound self) in E.
    rewrite H in E. discriminate E.
Qed.
